(** * AI Car Catalog DB: the extraction pipeline, its progress tracker and
      the catalog stores

    A shallow embedding of the TypeScript sources:
    - [services/geminiService.ts]   the extraction gateway
    - [services/webScraperService]  the web content fetch
    - [db.ts] (IndexedDB) and its Firestore successor: the catalog stores
    - [App.tsx] (the version with the progress tracker): the orchestrator
    - [App.tsx] (the first version, over IndexedDB): its extraction handler
    - [components/]: the URL form, the filter controls, the table's option
      cell and the progress display; [utils/export.ts]: the CSV export

    JavaScript strings are sequences of UTF-16 code units; promises are
    modelled by the value they settle to; everything outside the program
    (the AI model, the network, the storage media, the clock) is an oracle
    collected in the record [Env]. *)

From Stdlib Require Import ZArith NArith List String Ascii Lia DecimalN.
From stdpp Require Import base option list gmap sorting.

Local Open Scope N_scope.

(** ** JavaScript strings *)

Abbreviation jsstring := (list N).

(** Decoding of a UTF-8 source literal into UTF-16 code units. *)
Fixpoint utf16_of_utf8 (bs : list N) : jsstring :=
  match bs with
  | [] => []
  | b1 :: r1 =>
    if b1 <? 0x80 then b1 :: utf16_of_utf8 r1
    else
      match r1 with
      | [] => [0xFFFD]
      | b2 :: r2 =>
        if b1 <? 0xE0 then
          N.lor (N.shiftl (N.land b1 0x1F) 6) (N.land b2 0x3F) :: utf16_of_utf8 r2
        else
          match r2 with
          | [] => [0xFFFD]
          | b3 :: r3 =>
            if b1 <? 0xF0 then
              N.lor (N.shiftl (N.land b1 0x0F) 12)
                (N.lor (N.shiftl (N.land b2 0x3F) 6) (N.land b3 0x3F))
              :: utf16_of_utf8 r3
            else
              match r3 with
              | [] => [0xFFFD]
              | b4 :: r4 =>
                let cp :=
                  N.lor (N.shiftl (N.land b1 0x07) 18)
                    (N.lor (N.shiftl (N.land b2 0x3F) 12)
                       (N.lor (N.shiftl (N.land b3 0x3F) 6) (N.land b4 0x3F))) in
                let v := cp - 0x10000 in
                (0xD800 + N.shiftr v 10) :: (0xDC00 + N.land v 0x3FF)
                :: utf16_of_utf8 r4
              end
          end
      end
  end.

Definition js (s : string) : jsstring :=
  utf16_of_utf8 (map Byte.to_N (list_byte_of_string s)).

(** [WhiteSpace] and [LineTerminator] code units, the ones
    [String.prototype.trim] strips. *)
Definition isWhiteSpace (c : N) : bool :=
  (c =? 0x09) || (c =? 0x0A) || (c =? 0x0B) || (c =? 0x0C) || (c =? 0x0D)
  || (c =? 0x20) || (c =? 0xA0) || (c =? 0x1680)
  || ((0x2000 <=? c) && (c <=? 0x200A))
  || (c =? 0x2028) || (c =? 0x2029) || (c =? 0x202F) || (c =? 0x205F)
  || (c =? 0x3000) || (c =? 0xFEFF).

Fixpoint trimStart (s : jsstring) : jsstring :=
  match s with
  | [] => []
  | c :: r => if isWhiteSpace c then trimStart r else s
  end.

Definition trimEnd (s : jsstring) : jsstring := rev (trimStart (rev s)).

Definition trim (s : jsstring) : jsstring := trimEnd (trimStart s).

(** Truthiness of a string: the empty string is the only falsy one. *)
Definition truthy (s : jsstring) : bool :=
  match s with [] => false | _ :: _ => true end.

Fixpoint startsWith (needle s : jsstring) : bool :=
  match needle, s with
  | [], _ => true
  | _ :: _, [] => false
  | a :: needle', b :: s' => (a =? b) && startsWith needle' s'
  end.

Fixpoint includes (needle s : jsstring) : bool :=
  startsWith needle s
  || match s with
     | [] => false
     | _ :: s' => includes needle s'
     end.

Fixpoint takeWhileNot (stop : N) (s : jsstring) : jsstring :=
  match s with
  | [] => []
  | c :: r => if c =? stop then [] else c :: takeWhileNot stop r
  end.

(** [Array.prototype.join] on an array of strings. *)
Fixpoint join (sep : jsstring) (l : list jsstring) : jsstring :=
  match l with
  | [] => []
  | [x] => x
  | x :: r => x ++ sep ++ join sep r
  end.

Fixpoint digits_of_uint (d : Decimal.uint) : jsstring :=
  match d with
  | Decimal.Nil => []
  | Decimal.D0 r => 0x30 :: digits_of_uint r
  | Decimal.D1 r => 0x31 :: digits_of_uint r
  | Decimal.D2 r => 0x32 :: digits_of_uint r
  | Decimal.D3 r => 0x33 :: digits_of_uint r
  | Decimal.D4 r => 0x34 :: digits_of_uint r
  | Decimal.D5 r => 0x35 :: digits_of_uint r
  | Decimal.D6 r => 0x36 :: digits_of_uint r
  | Decimal.D7 r => 0x37 :: digits_of_uint r
  | Decimal.D8 r => 0x38 :: digits_of_uint r
  | Decimal.D9 r => 0x39 :: digits_of_uint r
  end.

(** [String(n)] for a non-negative integer. *)
Definition decimal (n : N) : jsstring := digits_of_uint (N.to_uint n).

(** ** Thrown values and settled promises *)

Inductive ErrorClass := PlainError | TypeError | OtherError.

(** An instance of [Error] (or of a subclass) with its [message]. *)
Record JsError := { errClass : ErrorClass; message : jsstring }.

(** What a [catch] clause or a rejection handler receives: an [Error], or
    some other value (for instance the [false] of [initDB]). *)
Inductive Thrown :=
| ThrownError (e : JsError)
| ThrownValue.

Definition newError (msg : jsstring) : Thrown :=
  ThrownError {| errClass := PlainError; message := msg |}.

Inductive Settled (A : Type) :=
| Fulfilled (a : A)
| Rejected (reason : Thrown).
Arguments Fulfilled {A} a.
Arguments Rejected {A} reason.

(** [e instanceof Error ? e.message : fallback] *)
Definition messageOr (fallback : jsstring) (e : Thrown) : jsstring :=
  match e with
  | ThrownError err => message err
  | ThrownValue => fallback
  end.

(** A local variable that starts at [initial] and is assigned the value of
    a fulfilled result. *)
Definition valueOr {A} (initial : A) (result : Settled A) : A :=
  match result with
  | Fulfilled value => value
  | Rejected _ => initial
  end.

(** What a rejected result pushes onto [apiErrors]. *)
Definition failureOf {A} (fallback : jsstring) (result : Settled A) : list jsstring :=
  match result with
  | Fulfilled _ => []
  | Rejected reason => [messageOr fallback reason]
  end.

(** A promise handed to [withTimeout]: when it settles, and to what. *)
Inductive Promise (A : Type) :=
| SettlesAt (ms : N) (r : Settled A)
| NeverSettles.
Arguments SettlesAt {A} ms r.
Arguments NeverSettles {A}.

Definition timeoutError (ms : N) : Thrown :=
  newError (js "Request timed out after " ++ decimal ms ++ js " ms").

(** [withTimeout(promise, ms)]: the timer rejects unless the promise has
    settled before it fires. *)
Definition withTimeout {A} (promise : Promise A) (ms : N) : Settled A :=
  match promise with
  | SettlesAt t r => if t <? ms then r else Rejected (timeoutError ms)
  | NeverSettles => Rejected (timeoutError ms)
  end.

(** ** Data model ([types.ts]) *)

Record CarSpecification := {
  car_id : jsstring;
  manufacturer : option jsstring;
  modelName : option jsstring;
  grade : option jsstring;
  price : option Z;
  issueDate : option jsstring;
  engineType : option jsstring;
  displacement : option jsstring;
  maxPower : option jsstring;
  maxTorque : option jsstring;
  fuelEconomy : option jsstring;
  options : option (list jsstring)
}.

(** [{ ...item, id }] *)
Definition with_car_id (item : CarSpecification) (i : jsstring) : CarSpecification :=
  {| car_id := i;
     manufacturer := manufacturer item; modelName := modelName item;
     grade := grade item; price := price item; issueDate := issueDate item;
     engineType := engineType item; displacement := displacement item;
     maxPower := maxPower item; maxTorque := maxTorque item;
     fuelEconomy := fuelEconomy item; options := options item |}.

(** [Omit<CatalogRecord, 'id'>]; [createdAt] is a [Date], kept as its
    time value in milliseconds. Optional properties are [option]s. *)
Record CatalogData := {
  fileName : jsstring;
  createdAt : Z;
  extractedData : list CarSpecification;
  rawJson : jsstring;
  rawText : jsstring;
  summary : option jsstring;
  images : option (list jsstring)
}.

(** [CatalogRecord]: the data together with the identifier the store
    assigned. IndexedDB identifies by number, Firestore by string. *)
Record CatalogRecord (Id : Type) := {
  id : Id;
  data : CatalogData
}.
Arguments id {Id} c.
Arguments data {Id} c.
Arguments Build_CatalogRecord {Id} id data.

(** [{ ...catalog, summary }] *)
Definition with_summary (d : CatalogData) (s : jsstring) : CatalogData :=
  {| fileName := fileName d; createdAt := createdAt d;
     extractedData := extractedData d; rawJson := rawJson d;
     rawText := rawText d; summary := Some s; images := images d |}.

(** [{ ...catalog, images }] *)
Definition with_images (d : CatalogData) (imgs : list jsstring) : CatalogData :=
  {| fileName := fileName d; createdAt := createdAt d;
     extractedData := extractedData d; rawJson := rawJson d;
     rawText := rawText d; summary := summary d; images := Some imgs |}.

(** ** The extraction gateway ([services/geminiService.ts]) *)

(** [img.split(',')[1]]: the piece between the first and the second comma,
    [undefined] when the string has no comma. *)
Fixpoint dataPart (img : jsstring) : option jsstring :=
  match img with
  | [] => None
  | c :: r => if c =? 0x2C then Some (takeWhileNot 0x2C r) else dataPart r
  end.

(** The three requests sent to [ai.models.generateContent]; each has a fixed
    prompt, so a request is determined by its kind and its payload. *)
Inductive AiRequest :=
| CarDataRequest (imageParts : list (option jsstring))
| RawTextRequest (imageParts : list (option jsstring))
| SummaryRequest (text : jsstring).

(** A conversation created by [createChat], seeded with the records. *)
Record Chat := { chatSeed : list CarSpecification }.

Definition createChat (extractedData : list CarSpecification) : Chat :=
  {| chatSeed := extractedData |}.

Record JsonData := {
  parsedData : list CarSpecification;
  jd_rawJson : jsstring
}.

(** Result of [extractCarDataFromWebPage]. *)
Record WebData := {
  wd_parsedData : list CarSpecification;
  wd_rawJson : jsstring;
  wd_rawText : jsstring
}.

(** [fetch]'s [Response], as far as the program reads it. *)
Record Response := {
  ok : bool;
  status : N;
  json_contents : Settled jsstring
}.

(** Outcome of reading the uploaded file with a [FileReader] and of
    rendering its pages. *)
Inductive FileOutcome :=
| ReaderThrows (e : Thrown)
| ReaderNeverLoads
| LoadedWithoutResult
| PdfFails
| PagesRendered (images : list jsstring).

(** Everything outside the program: the platform's functions the model does
    not spell out, the answers of the network and of the storage media, and
    [extractCarDataFromWebPage], a gateway operation whose source is not
    available. The clock gives one reading per run. *)
Record Env := {
  (* the JavaScript platform *)
  toLowerCase : jsstring -> jsstring;
  JSON_parse : jsstring -> Settled (list CarSpecification);
  Date_now : N;
  new_Date : Z;
  parseURL : jsstring -> option jsstring;
  invalidURLMessage : jsstring -> jsstring;
  encodeURIComponent : jsstring -> Settled jsstring;
  (* the network *)
  generateContent : AiRequest -> Promise jsstring;
  fetch : jsstring -> Settled Response;
  extractCarDataFromWebPage : jsstring -> jsstring -> Settled WebData;
  (* the browser's file and PDF machinery *)
  readFile : jsstring -> FileOutcome;
  (* Firebase: the identifier [addDoc] generates, and the faults of the
     medium (transport, permissions, validation) *)
  uploadImagesToStorage : list jsstring -> jsstring -> Settled (list jsstring);
  addDoc_outcome : Settled jsstring;
  getDocs_fault : option Thrown;
  deleteDoc_fault : jsstring -> option Thrown;
  updateDoc_fault : jsstring -> option Thrown;
  updateDoc_notFound : jsstring -> Thrown
}.

Definition MSG_NO_SUMMARY_TEXT : jsstring :=
  Eval vm_compute in js "要約対象のテキストがありません。".

Section Gateway.
Variable env : Env.

(** The user-facing error for a failed call (what it writes to the console
    is left out). *)
Definition handleGeminiError (error : Thrown) (context : jsstring) : Thrown :=
  match error with
  | ThrownError e =>
    let errorMessage := toLowerCase env (message e) in
    if includes (js "api key not valid") errorMessage
       || includes (js "api_key_invalid") errorMessage
    then newError (js "APIキーが無効か、設定されていません。環境変数を確認してください。")
    else if includes (js "rate limit") errorMessage
            || includes (js "resource_exhausted") errorMessage
            || includes (js "429") errorMessage
    then newError (js "APIの利用回数制限を超えました。しばらく待ってから再度お試しください。(コンテキスト: "
                     ++ context ++ js ")")
    else if includes (js "billing") errorMessage
            || includes (js "project_disabled") errorMessage
    then newError (js "Google Cloudプロジェクトの課金設定に問題がある可能性があります。設定を確認してください。")
    else if includes (js "timed out") errorMessage
    then newError (js "AIによる" ++ context
                     ++ js "がタイムアウトしました。カタログが大きすぎるか、複雑すぎる可能性があります。")
    else newError (js "AIによる" ++ context ++ js "中にエラーが発生しました: " ++ message e)
  | ThrownValue =>
    newError (js "AIによる" ++ context ++ js "中に不明なエラーが発生しました。")
  end.

(** [parsedJson.map((item, index) => ({ ...item, id: `${Date.now()}-${index}` }))] *)
Fixpoint assignIds (index : N) (items : list CarSpecification) : list CarSpecification :=
  match items with
  | [] => []
  | item :: r =>
    with_car_id item (decimal (Date_now env) ++ js "-" ++ decimal index)
    :: assignIds (index + 1) r
  end.

(** Each gateway operation returns what its promise settles to, together
    with the requests it sent to the model. *)
Definition extractCarDataFromImages (base64Images : list jsstring)
  : Settled JsonData * list AiRequest :=
  let request := CarDataRequest (map dataPart base64Images) in
  let context := js "構造化データ抽出" in
  (match withTimeout (generateContent env request) 600000 with
   | Fulfilled text =>
     let jsonText := trim text in
     if negb (truthy jsonText) then
       Rejected (handleGeminiError (newError (js "AIから空の応答が返されました。")) context)
     else
       match JSON_parse env jsonText with
       | Fulfilled parsedJson =>
         Fulfilled {| parsedData := assignIds 0 parsedJson; jd_rawJson := jsonText |}
       | Rejected error => Rejected (handleGeminiError error context)
       end
   | Rejected error => Rejected (handleGeminiError error context)
   end,
   [request]).

Definition extractRawTextFromImages (base64Images : list jsstring)
  : Settled jsstring * list AiRequest :=
  let request := RawTextRequest (map dataPart base64Images) in
  (match withTimeout (generateContent env request) 600000 with
   | Fulfilled text => Fulfilled (trim text)
   | Rejected error => Rejected (handleGeminiError error (js "テキスト抽出"))
   end,
   [request]).

Definition generateSummary (text : jsstring) : Settled jsstring * list AiRequest :=
  if negb (truthy (trim text)) then
    (Fulfilled MSG_NO_SUMMARY_TEXT, [])
  else
    let request := SummaryRequest text in
    (match withTimeout (generateContent env request) 120000 with
     | Fulfilled response => Fulfilled (trim response)
     | Rejected error => Rejected (handleGeminiError error (js "要約生成"))
     end,
     [request]).

End Gateway.

(** ** The IndexedDB catalog store ([db.ts]) *)

Module IndexedDb.

(** The object store [catalogs], created with
    [{ keyPath: 'id', autoIncrement: true }]: its key generator and its
    records, which IndexedDB keeps in ascending key order. *)
Record ObjectStore := {
  keyGenerator : Z;
  records : list (CatalogRecord Z)
}.

(** The store [onupgradeneeded] creates. *)
Definition initDB : ObjectStore := {| keyGenerator := 1; records := [] |}.

(** [store.add(catalog)]: the generated key is written at the key path. *)
Definition add (catalog : CatalogData) (db : ObjectStore) : Z * ObjectStore :=
  let key := keyGenerator db in
  (key, {| keyGenerator := key + 1;
           records := records db ++ [Build_CatalogRecord key catalog] |}).

(** [store.delete(id)] succeeds whether or not a record has the key. *)
Definition delete (key : Z) (db : ObjectStore) : ObjectStore :=
  {| keyGenerator := keyGenerator db;
     records := filter (fun c => id c <> key) (records db) |}.

(** [array.sort((a, b) => b.id - a.id)]: [a] may precede [b] when the
    comparator is not positive. *)
Definition newerFirst (a b : CatalogRecord Z) : Prop := (id b - id a <= 0)%Z.

#[global] Instance newerFirst_dec a b : Decision (newerFirst a b).
Proof. unfold newerFirst. apply _. Defined.

(** Each operation takes the error, if any, that the request raises
    ([request.onerror]). *)
Definition saveCatalog (fault : option Thrown) (catalog : CatalogData) (db : ObjectStore)
  : Settled (CatalogRecord Z) * ObjectStore :=
  match fault with
  | Some e => (Rejected e, db)
  | None =>
    let '(key, db') := add catalog db in
    (Fulfilled (Build_CatalogRecord key catalog), db')
  end.

Definition getAllCatalogs (fault : option Thrown) (db : ObjectStore)
  : Settled (list (CatalogRecord Z)) :=
  match fault with
  | Some e => Rejected e
  | None => Fulfilled (merge_sort newerFirst (records db))
  end.

Definition deleteCatalog (fault : option Thrown) (key : Z) (db : ObjectStore)
  : Settled unit * ObjectStore :=
  match fault with
  | Some e => (Rejected e, db)
  | None => (Fulfilled tt, delete key db)
  end.

(** The invariant of the object store: keys ascend strictly and stay
    below the key generator. *)
Definition older (a b : CatalogRecord Z) : Prop := (id a < id b)%Z.

Definition ascending (db : ObjectStore) : Prop :=
  StronglySorted older (records db)
  /\ Forall (fun c => (id c < keyGenerator db)%Z) (records db).

(** A history of the store: the successful operations applied to it
    since its creation. *)
Inductive Op :=
| Save (catalog : CatalogData)
| Delete (key : Z).

Definition apply (db : ObjectStore) (op : Op) : ObjectStore :=
  match op with
  | Save catalog => snd (saveCatalog None catalog db)
  | Delete key => snd (deleteCatalog None key db)
  end.

Definition replay (ops : list Op) : ObjectStore := fold_left apply ops initDB.

(** The listing the specification asks for, written from its words: the
    records created and not deleted since, the newest first. The [n]-th
    creation receives the identifier [n]. *)
Fixpoint newestFirst (created : Z) (listing : list (CatalogRecord Z)) (ops : list Op)
  : list (CatalogRecord Z) :=
  match ops with
  | [] => listing
  | Save catalog :: r =>
    newestFirst (created + 1) (Build_CatalogRecord (created + 1)%Z catalog :: listing) r
  | Delete key :: r =>
    newestFirst created (filter (fun c => id c <> key) listing) r
  end.

End IndexedDb.

(** ** The Firestore catalog store *)

Module Firestore.

(** Firestore's [Timestamp]. *)
Record Timestamp := { seconds : Z; nanoseconds : Z }.

Definition fromDate (date : Z) : Timestamp :=
  {| seconds := date / 1000; nanoseconds := (date mod 1000) * 1000000 |}%Z.

Definition toDate (t : Timestamp) : Z :=
  (seconds t * 1000 + nanoseconds t / 1000000)%Z.

(** A document of the collection [catalogs]: the identifier is the
    document's name, not one of its fields. *)
Record CatalogDoc := {
  doc_fileName : jsstring;
  doc_createdAt : Timestamp;
  doc_extractedData : list CarSpecification;
  doc_rawJson : jsstring;
  doc_rawText : jsstring;
  doc_summary : option jsstring;
  doc_images : option (list jsstring)
}.

(** [{ ...catalog, createdAt: Timestamp.fromDate(catalog.createdAt) }] *)
Definition docOfData (catalog : CatalogData) : CatalogDoc :=
  {| doc_fileName := fileName catalog;
     doc_createdAt := fromDate (createdAt catalog);
     doc_extractedData := extractedData catalog;
     doc_rawJson := rawJson catalog;
     doc_rawText := rawText catalog;
     doc_summary := summary catalog;
     doc_images := images catalog |}.

(** [{ ...data, id: doc.id, createdAt: data.createdAt.toDate() }] *)
Definition recordOfDoc (entry : jsstring * CatalogDoc) : CatalogRecord jsstring :=
  let d := entry.2 in
  {| id := entry.1;
     data := {| fileName := doc_fileName d;
                createdAt := toDate (doc_createdAt d);
                extractedData := doc_extractedData d;
                rawJson := doc_rawJson d;
                rawText := doc_rawText d;
                summary := doc_summary d;
                images := doc_images d |} |}.

(** [updateDoc] writes the fields it is given and keeps the others. *)
Definition mergeDoc (old new : CatalogDoc) : CatalogDoc :=
  {| doc_fileName := doc_fileName new;
     doc_createdAt := doc_createdAt new;
     doc_extractedData := doc_extractedData new;
     doc_rawJson := doc_rawJson new;
     doc_rawText := doc_rawText new;
     doc_summary := match doc_summary new with
                    | Some s => Some s
                    | None => doc_summary old
                    end;
     doc_images := match doc_images new with
                   | Some i => Some i
                   | None => doc_images old
                   end |}.

(** Order of [orderBy('createdAt', 'desc')]: later timestamps first. *)
Definition laterFirst (a b : jsstring * CatalogDoc) : Prop :=
  let ta := doc_createdAt a.2 in
  let tb := doc_createdAt b.2 in
  (seconds tb < seconds ta
   \/ (seconds tb = seconds ta /\ nanoseconds tb <= nanoseconds ta))%Z.

#[global] Instance laterFirst_dec a b : Decision (laterFirst a b).
Proof. unfold laterFirst. apply _. Defined.

Section Store.
Variable env : Env.

Definition saveCatalog (catalog : CatalogData) (db : gmap jsstring CatalogDoc)
  : Settled (CatalogRecord jsstring) * gmap jsstring CatalogDoc :=
  let catalogId := js "catalog-" ++ decimal (Date_now env) in
  let uploaded :=
    match images catalog with
    | Some (i :: r) => uploadImagesToStorage env (i :: r) catalogId
    | _ => Fulfilled []
    end in
  match uploaded with
  | Rejected error => (Rejected error, db)
  | Fulfilled imageUrls =>
    let catalogData := docOfData (with_images catalog imageUrls) in
    match addDoc_outcome env with
    | Rejected error => (Rejected error, db)
    | Fulfilled docId =>
      (Fulfilled (Build_CatalogRecord docId (with_images catalog imageUrls)),
       <[docId := catalogData]> db)
    end
  end.

Definition getAllCatalogs (db : gmap jsstring CatalogDoc)
  : Settled (list (CatalogRecord jsstring)) :=
  match getDocs_fault env with
  | Some error => Rejected error
  | None => Fulfilled (map recordOfDoc (merge_sort laterFirst (map_to_list db)))
  end.

Definition deleteCatalog (key : jsstring) (db : gmap jsstring CatalogDoc)
  : Settled unit * gmap jsstring CatalogDoc :=
  match deleteDoc_fault env key with
  | Some error => (Rejected error, db)
  | None => (Fulfilled tt, base.delete key db)
  end.

Definition updateCatalog (catalog : CatalogRecord jsstring) (db : gmap jsstring CatalogDoc)
  : Settled (CatalogRecord jsstring) * gmap jsstring CatalogDoc :=
  let dataToUpdate := docOfData (data catalog) in
  match db !! id catalog with
  | None => (Rejected (updateDoc_notFound env (id catalog)), db)
  | Some old =>
    match updateDoc_fault env (id catalog) with
    | Some error => (Rejected error, db)
    | None => (Fulfilled catalog, <[id catalog := mergeDoc old dataToUpdate]> db)
    end
  end.

End Store.

End Firestore.

(** ** The web content fetch ([services/webScraperService.ts]) *)

Definition MSG_INVALID_URL : jsstring :=
  Eval vm_compute in js "無効なURLです。正しいURLを入力してください。".

Section WebScraper.
Variable env : Env.

(** [new URL(url)]: the parsed URL (its host name is all the program
    reads), or a [TypeError]. *)
Definition newURL (url : jsstring) : Settled jsstring :=
  match parseURL env url with
  | Some hostname => Fulfilled hostname
  | None =>
    Rejected (ThrownError {| errClass := TypeError;
                             message := invalidURLMessage env url |})
  end.

Definition isTypeError (e : JsError) : bool :=
  match errClass e with TypeError => true | _ => false end.

(** The [try] block: its outcome and the URLs handed to [fetch]. *)
Definition fetchWebPageContent_try (url : jsstring) : Settled jsstring * list jsstring :=
  match newURL url with
  | Rejected error => (Rejected error, [])
  | Fulfilled _ =>
    match encodeURIComponent env url with
    | Rejected error => (Rejected error, [])
    | Fulfilled encoded =>
      let corsProxyUrl := js "https://api.allorigins.win/get?url=" ++ encoded in
      (match fetch env corsProxyUrl with
       | Rejected error => Rejected error
       | Fulfilled response =>
         if negb (ok response) then
           Rejected (newError (js "HTTPエラー: " ++ decimal (status response)))
         else json_contents response
       end,
       [corsProxyUrl])
    end
  end.

Definition fetchWebPageContent (url : jsstring) : Settled jsstring * list jsstring :=
  let '(outcome, fetched) := fetchWebPageContent_try url in
  (match outcome with
   | Fulfilled contents => Fulfilled contents
   | Rejected (ThrownError e) =>
     if isTypeError e && includes (js "URL") (message e) then
       Rejected (newError MSG_INVALID_URL)
     else
       Rejected (newError (js "Webページの取得に失敗しました: " ++ message e))
   | Rejected ThrownValue =>
     Rejected (newError (js "Webページの取得中に不明なエラーが発生しました。"))
   end,
   fetched).

End WebScraper.

(** ** The progress tracker and the orchestrator ([App.tsx]) *)

Inductive ProgressStep :=
| Idle | Reading | Converting | ExtractingText | ExtractingJson | Saving | Done | Error.

#[global] Instance ProgressStep_eq_dec : EqDecision ProgressStep.
Proof. solve_decision. Defined.

Definition ProgressStep_code (s : ProgressStep) : nat :=
  match s with
  | Idle => 0 | Reading => 1 | Converting => 2 | ExtractingText => 3
  | ExtractingJson => 4 | Saving => 5 | Done => 6 | Error => 7
  end%nat.

Definition ProgressStep_of_code (n : nat) : ProgressStep :=
  match n with
  | 0 => Idle | 1 => Reading | 2 => Converting | 3 => ExtractingText
  | 4 => ExtractingJson | 5 => Saving | 6 => Done | _ => Error
  end%nat.

#[global] Instance ProgressStep_countable : Countable ProgressStep.
Proof.
  refine (inj_countable' ProgressStep_code ProgressStep_of_code _).
  intros []; reflexivity.
Defined.

Record ProgressState := {
  step : ProgressStep;
  error : option jsstring;
  completedSteps : gset ProgressStep
}.

Record Filters := {
  flt_manufacturer : jsstring;
  flt_modelName : jsstring;
  flt_issueDate : jsstring;
  flt_option : jsstring
}.

Definition noFilters : Filters :=
  {| flt_manufacturer := []; flt_modelName := []; flt_issueDate := []; flt_option := [] |}.

(** The component's state ([useState]). *)
Record AppState := {
  pdfFile : option jsstring;
  progress : ProgressState;
  filters : Filters;
  chat : option Chat;
  savedCatalogs : list (CatalogRecord jsstring);
  selectedCatalog : option (CatalogRecord jsstring);
  isGeneratingSummary : bool
}.

(** What the program does to the outside, in order. *)
Inductive Event :=
| SetProgress (p : ProgressState)
| AiCall (request : AiRequest)
| FetchCall (url : jsstring)
| SaveCall (catalog : CatalogData)
| UpdateCall (catalog : CatalogRecord jsstring)
| DeleteCall (key : jsstring)
| ConsoleError (label : jsstring) (e : Thrown)
| SetTimeout (p : ProgressState) (ms : N).

Record World := {
  ui : AppState;
  firestore : gmap jsstring Firestore.CatalogDoc;
  events : list Event
}.

(** The state monad of the event handlers. *)
Definition M (A : Type) : Type := World -> A * World.

Definition ret {A} (a : A) : M A := fun w => (a, w).

Definition bind {A B} (m : M A) (k : A -> M B) : M B :=
  fun w => let '(a, w') := m w in k a w'.

Declare Scope app_scope.
Delimit Scope app_scope with app.
Notation "x <- m ;; k" := (bind m (fun x => k))
  (at level 100, m at next level, right associativity) : app_scope.
Notation "m ;; k" := (bind m (fun _ => k))
  (at level 100, right associativity) : app_scope.

Definition emit (l : list Event) : M unit :=
  fun w => (tt, {| ui := ui w; firestore := firestore w; events := events w ++ l |}).

Definition modify (f : AppState -> AppState) : M unit :=
  fun w => (tt, {| ui := f (ui w); firestore := firestore w; events := events w |}).

Definition setPdfFile (v : option jsstring) : M unit :=
  modify (fun s =>
    {| pdfFile := v; progress := progress s; filters := filters s; chat := chat s;
       savedCatalogs := savedCatalogs s; selectedCatalog := selectedCatalog s;
       isGeneratingSummary := isGeneratingSummary s |}).

Definition setFilters (v : Filters) : M unit :=
  modify (fun s =>
    {| pdfFile := pdfFile s; progress := progress s; filters := v; chat := chat s;
       savedCatalogs := savedCatalogs s; selectedCatalog := selectedCatalog s;
       isGeneratingSummary := isGeneratingSummary s |}).

Definition setChat (v : option Chat) : M unit :=
  modify (fun s =>
    {| pdfFile := pdfFile s; progress := progress s; filters := filters s; chat := v;
       savedCatalogs := savedCatalogs s; selectedCatalog := selectedCatalog s;
       isGeneratingSummary := isGeneratingSummary s |}).

Definition setSavedCatalogs
    (f : list (CatalogRecord jsstring) -> list (CatalogRecord jsstring)) : M unit :=
  modify (fun s =>
    {| pdfFile := pdfFile s; progress := progress s; filters := filters s; chat := chat s;
       savedCatalogs := f (savedCatalogs s); selectedCatalog := selectedCatalog s;
       isGeneratingSummary := isGeneratingSummary s |}).

Definition setSelectedCatalog (v : option (CatalogRecord jsstring)) : M unit :=
  modify (fun s =>
    {| pdfFile := pdfFile s; progress := progress s; filters := filters s; chat := chat s;
       savedCatalogs := savedCatalogs s; selectedCatalog := v;
       isGeneratingSummary := isGeneratingSummary s |}).

Definition setIsGeneratingSummary (v : bool) : M unit :=
  modify (fun s =>
    {| pdfFile := pdfFile s; progress := progress s; filters := filters s; chat := chat s;
       savedCatalogs := savedCatalogs s; selectedCatalog := selectedCatalog s;
       isGeneratingSummary := v |}).

(** [setProgress(prev => ...)]; every state the tracker takes is recorded. *)
Definition setProgress (f : ProgressState -> ProgressState) : M unit :=
  fun w =>
    let p := f (progress (ui w)) in
    (tt,
     {| ui := {| pdfFile := pdfFile (ui w); progress := p; filters := filters (ui w);
                 chat := chat (ui w); savedCatalogs := savedCatalogs (ui w);
                 selectedCatalog := selectedCatalog (ui w);
                 isGeneratingSummary := isGeneratingSummary (ui w) |};
        firestore := firestore w;
        events := events w ++ [SetProgress p] |}).

(** [{ step, completedSteps: new Set() }] *)
Definition atStep (s : ProgressStep) : ProgressState :=
  {| step := s; error := None; completedSteps := ∅ |}.

(** [{ step: 'error', error: msg, completedSteps: new Set() }] *)
Definition failedAfresh (msg : jsstring) : ProgressState :=
  {| step := Error; error := Some msg; completedSteps := ∅ |}.

(** [{ ...prev, step: 'error', error: msg, completedSteps: prev.completedSteps }] *)
Definition failedKeeping (msg : jsstring) (prev : ProgressState) : ProgressState :=
  {| step := Error; error := Some msg; completedSteps := completedSteps prev |}.

(** [{ ...prev, step: s, completedSteps: new Set(prev.completedSteps).add(c) }] *)
Definition advance (s : ProgressStep) (finished : gset ProgressStep) (prev : ProgressState)
  : ProgressState :=
  {| step := s; error := error prev; completedSteps := completedSteps prev ∪ finished |}.

(** A gateway operation: its requests reach the model, its result comes back. *)
Definition gateway {A} (call : Settled A * list AiRequest) : M (Settled A) :=
  (emit (map AiCall call.2) ;; ret call.1)%app.

Definition console_error (label : jsstring) (e : Thrown) : M unit :=
  emit [ConsoleError label e].

Definition setTimeout (p : ProgressState) (ms : N) : M unit :=
  emit [SetTimeout p ms].

Definition MSG_NO_IMAGES : jsstring :=
  Eval vm_compute in js "PDFから画像が抽出できませんでした。".
Definition MSG_TEXT_UNKNOWN : jsstring :=
  Eval vm_compute in js "AIによるテキスト抽出中に不明なエラーが発生しました。".
Definition MSG_JSON_UNKNOWN : jsstring :=
  Eval vm_compute in js "AIによる構造化データ抽出中に不明なエラーが発生しました。".
Definition MSG_EXTRACT_UNEXPECTED : jsstring :=
  Eval vm_compute in js "データ抽出中に予期せぬエラーが発生しました。".
Definition MSG_NOTHING_EXTRACTED : jsstring :=
  Eval vm_compute in js "AIはカタログから有効なデータを抽出できませんでした。".
Definition MSG_SAVE_FAILED : jsstring :=
  Eval vm_compute in js "データベースへの保存に失敗しました。".
Definition MSG_NO_READ_RESULT : jsstring :=
  Eval vm_compute in js "PDFファイルの読み込みに失敗しました。".
Definition MSG_PDF_FAILED : jsstring :=
  Eval vm_compute in js "PDFの処理中にエラーが発生しました。".
Definition MSG_URL_FAILED : jsstring :=
  Eval vm_compute in js "URLからのデータ取得中にエラーが発生しました。".

(** The line separator of [apiErrors.join('\n')]. *)
Definition LF : jsstring := [0x0A].

Section App.
Variable env : Env.

(** *** The store, as the component calls it ([import * as db]) *)

Definition db_saveCatalog (catalog : CatalogData) : M (Settled (CatalogRecord jsstring)) :=
  fun w =>
    let '(r, db') := Firestore.saveCatalog env catalog (firestore w) in
    (r,
     {| ui := ui w; firestore := db';
        events := events w ++ SaveCall catalog ::
          match r with
          | Rejected e => [ConsoleError (js "Error saving catalog to Firestore:") e]
          | Fulfilled _ => []
          end |}).

Definition db_getAllCatalogs : M (Settled (list (CatalogRecord jsstring))) :=
  fun w =>
    let r := Firestore.getAllCatalogs env (firestore w) in
    (r,
     {| ui := ui w; firestore := firestore w;
        events := events w ++
          match r with
          | Rejected e => [ConsoleError (js "Error getting catalogs from Firestore:") e]
          | Fulfilled _ => []
          end |}).

Definition db_deleteCatalog (key : jsstring) : M (Settled unit) :=
  fun w =>
    let '(r, db') := Firestore.deleteCatalog env key (firestore w) in
    (r,
     {| ui := ui w; firestore := db';
        events := events w ++ DeleteCall key ::
          match r with
          | Rejected e => [ConsoleError (js "Error deleting catalog from Firestore:") e]
          | Fulfilled _ => []
          end |}).

Definition db_updateCatalog (catalog : CatalogRecord jsstring)
  : M (Settled (CatalogRecord jsstring)) :=
  fun w =>
    let '(r, db') := Firestore.updateCatalog env catalog (firestore w) in
    (r,
     {| ui := ui w; firestore := db';
        events := events w ++ UpdateCall catalog ::
          match r with
          | Rejected e => [ConsoleError (js "Error updating catalog in Firestore:") e]
          | Fulfilled _ => []
          end |}).

(** *** The handlers *)

Definition loadCatalogs : M (Settled unit) :=
  (catalogs <- db_getAllCatalogs ;;
   match catalogs with
   | Fulfilled l => setSavedCatalogs (fun _ => l) ;; ret (Fulfilled tt)
   | Rejected e => ret (Rejected e)
   end)%app.

Definition resetStateForNewFile : M unit :=
  (setPdfFile None ;;
   setSelectedCatalog None ;;
   setFilters noFilters ;;
   setChat None)%app.

(** What the first [try] block of [handleExtractData] leaves in the local
    variables when it completes. *)
Record Extracted := {
  extractedRawText : jsstring;
  extractedJsonData : JsonData;
  extractedSummary : jsstring
}.

(** The first [try] block: [Rejected] is the exception it throws. *)
Definition handleExtractData_try (images : list jsstring) : M (Settled Extracted) :=
  (textResult <- gateway (extractRawTextFromImages env images) ;;
   jsonResult <- gateway (extractCarDataFromImages env images) ;;
   let rawText := valueOr [] textResult in
   let jsonData := valueOr {| parsedData := []; jd_rawJson := [] |} jsonResult in
   let apiErrors :=
     failureOf MSG_TEXT_UNKNOWN textResult ++ failureOf MSG_JSON_UNKNOWN jsonResult in
   match jsonResult with
   | Fulfilled value =>
     match parsedData value with
     | [] => ret tt
     | _ :: _ => setChat (Some (createChat (parsedData value)))
     end
   | Rejected _ => ret tt
   end ;;
   match apiErrors with
   | _ :: _ => ret (Rejected (newError (join LF apiErrors)))
   | [] =>
     if truthy rawText then
       summaryResult <- gateway (generateSummary env rawText) ;;
       match summaryResult with
       | Fulfilled s =>
         ret (Fulfilled {| extractedRawText := rawText; extractedJsonData := jsonData;
                           extractedSummary := s |})
       | Rejected summaryError =>
         console_error (js "Summary generation failed, but continuing:") summaryError ;;
         ret (Fulfilled {| extractedRawText := rawText; extractedJsonData := jsonData;
                           extractedSummary := [] |})
       end
     else
       ret (Fulfilled {| extractedRawText := rawText; extractedJsonData := jsonData;
                         extractedSummary := [] |})
   end)%app.

(** The second [try] block: saving the assembled record. *)
Definition handleExtractData_save (images : list jsstring) (fileName : jsstring)
    (x : Extracted) : M (Settled unit) :=
  let newCatalogData :=
    {| fileName := fileName;
       createdAt := new_Date env;
       extractedData := parsedData (extractedJsonData x);
       rawJson := jd_rawJson (extractedJsonData x);
       rawText := extractedRawText x;
       summary := Some (extractedSummary x);
       images := Some images |} in
  (saved <- db_saveCatalog newCatalogData ;;
   match saved with
   | Rejected dbError => ret (Rejected dbError)
   | Fulfilled newCatalog =>
     loaded <- loadCatalogs ;;
     match loaded with
     | Rejected dbError => ret (Rejected dbError)
     | Fulfilled _ =>
       setSelectedCatalog (Some newCatalog) ;;
       setProgress (advance Done {[Saving]}) ;;
       setTimeout (atStep Idle) 5000 ;;
       ret (Fulfilled tt)
     end
   end)%app.

Definition handleExtractData (images : list jsstring) (fileName : jsstring) : M unit :=
  match images with
  | [] => setProgress (fun _ => failedAfresh MSG_NO_IMAGES)
  | _ :: _ =>
    (tried <- handleExtractData_try images ;;
     match tried with
     | Rejected err =>
       setProgress (failedKeeping (messageOr MSG_EXTRACT_UNEXPECTED err))
     | Fulfilled x =>
       setProgress (advance Saving {[ExtractingText; ExtractingJson]}) ;;
       if negb (truthy (extractedRawText x))
          && (length (parsedData (extractedJsonData x)) =? 0)%nat
       then setProgress (fun _ => failedAfresh MSG_NOTHING_EXTRACTED)
       else
         saved <- handleExtractData_save images fileName x ;;
         match saved with
         | Fulfilled _ => ret tt
         | Rejected dbError =>
           console_error (js "Failed to save to DB:") dbError ;;
           setProgress (failedKeeping (messageOr MSG_SAVE_FAILED dbError))
         end
     end)%app
  end.

(** [file] is the uploaded file, known by its name. *)
Definition handleFileChange (file : jsstring) : M unit :=
  (resetStateForNewFile ;;
   setPdfFile (Some file) ;;
   setProgress (fun _ => atStep Reading) ;;
   match readFile env file with
   | ReaderThrows err =>
     console_error (js "PDF processing error:") err ;;
     setProgress (fun _ => failedAfresh (messageOr MSG_PDF_FAILED err))
   | ReaderNeverLoads => ret tt
   | LoadedWithoutResult =>
     setProgress (fun _ => failedAfresh MSG_NO_READ_RESULT)
   | PdfFails =>
     setProgress (advance Converting {[Reading]})
   | PagesRendered images =>
     setProgress (advance Converting {[Reading]}) ;;
     setProgress (advance ExtractingText {[Converting]}) ;;
     handleExtractData images file
   end)%app.

(** The [try] block of [handleUrlSubmit]. *)
Definition handleUrlSubmit_try (url : jsstring) : M (Settled unit) :=
  (let fetched := fetchWebPageContent env url in
   emit (map FetchCall fetched.2) ;;
   match fetched.1 with
   | Rejected e => ret (Rejected e)
   | Fulfilled htmlContent =>
     setProgress (advance ExtractingJson {[Reading]}) ;;
     match extractCarDataFromWebPage env htmlContent url with
     | Rejected e => ret (Rejected e)
     | Fulfilled web =>
       match wd_parsedData web with
       | [] => ret tt
       | _ :: _ => setChat (Some (createChat (wd_parsedData web)))
       end ;;
       setProgress (advance Saving {[ExtractingJson]}) ;;
       summary <-
         (if truthy (wd_rawText web) then
            summaryResult <- gateway (generateSummary env (wd_rawText web)) ;;
            match summaryResult with
            | Fulfilled s => ret s
            | Rejected summaryError =>
              console_error (js "Summary generation failed, but continuing:") summaryError ;;
              ret []
            end
          else ret []) ;;
       match newURL env url with
       | Rejected e => ret (Rejected e)
       | Fulfilled hostname =>
         let newCatalogData :=
           {| fileName := hostname;
              createdAt := new_Date env;
              extractedData := wd_parsedData web;
              rawJson := wd_rawJson web;
              rawText := wd_rawText web;
              summary := Some summary;
              images := Some [] |} in
         saved <- db_saveCatalog newCatalogData ;;
         match saved with
         | Rejected e => ret (Rejected e)
         | Fulfilled newCatalog =>
           loaded <- loadCatalogs ;;
           match loaded with
           | Rejected e => ret (Rejected e)
           | Fulfilled _ =>
             setSelectedCatalog (Some newCatalog) ;;
             setProgress (advance Done {[Saving]}) ;;
             setTimeout (atStep Idle) 5000 ;;
             ret (Fulfilled tt)
           end
         end
       end
     end
   end)%app.

Definition handleUrlSubmit (url : jsstring) : M unit :=
  (resetStateForNewFile ;;
   setProgress (fun _ => atStep Reading) ;;
   tried <- handleUrlSubmit_try url ;;
   match tried with
   | Fulfilled _ => ret tt
   | Rejected err =>
     console_error (js "URL processing error:") err ;;
     setProgress (fun _ => failedAfresh (messageOr MSG_URL_FAILED err))
   end)%app.

(** [!catalog.summary]: absent, or the empty string. *)
Definition lacksSummary (catalog : CatalogRecord jsstring) : bool :=
  match summary (data catalog) with
  | None => true
  | Some s => negb (truthy s)
  end.

Definition handleSelectCatalog (catalog : CatalogRecord jsstring) : M unit :=
  (setPdfFile None ;;
   setFilters noFilters ;;
   setProgress (fun _ => atStep Idle) ;;
   match extractedData (data catalog) with
   | _ :: _ => setChat (Some (createChat (extractedData (data catalog))))
   | [] => setChat None
   end ;;
   if lacksSummary catalog && truthy (rawText (data catalog)) then
     setIsGeneratingSummary true ;;
     setSelectedCatalog (Some catalog) ;;
     summaryResult <- gateway (generateSummary env (rawText (data catalog))) ;;
     match summaryResult with
     | Rejected e => console_error (js "Failed to generate summary on demand:") e
     | Fulfilled s =>
       let updatedCatalog :=
         {| id := id catalog; data := with_summary (data catalog) s |} in
       updated <- db_updateCatalog updatedCatalog ;;
       match updated with
       | Rejected e => console_error (js "Failed to generate summary on demand:") e
       | Fulfilled _ =>
         setSelectedCatalog (Some updatedCatalog) ;;
         setSavedCatalogs
           (map (fun c => if decide (id c = id updatedCatalog) then updatedCatalog else c))
       end
     end ;;
     setIsGeneratingSummary false
   else
     setSelectedCatalog (Some catalog))%app.

Definition handleDeleteCatalog (key : jsstring) : M (Settled unit) :=
  (deleted <- db_deleteCatalog key ;;
   match deleted with
   | Rejected e => ret (Rejected e)
   | Fulfilled _ =>
     loaded <- loadCatalogs ;;
     match loaded with
     | Rejected e => ret (Rejected e)
     | Fulfilled _ =>
       selected <- (fun w => (selectedCatalog (ui w), w)) ;;
       match selected with
       | Some c =>
         if decide (id c = key) then
           setSelectedCatalog None ;;
           setChat None ;;
           setProgress (fun _ => atStep Idle) ;;
           ret (Fulfilled tt)
         else ret (Fulfilled tt)
       | None => ret (Fulfilled tt)
       end
     end
   end)%app.

End App.



(** The progress states a handler run went through, oldest first. *)
Definition progressTrace (l : list Event) : list ProgressState :=
  omap (fun e => match e with SetProgress p => Some p | _ => None end) l.

Definition saveCalls (l : list Event) : list CatalogData :=
  omap (fun e => match e with SaveCall c => Some c | _ => None end) l.

Definition fetchCalls (l : list Event) : list jsstring :=
  omap (fun e => match e with FetchCall u => Some u | _ => None end) l.

Definition aiCalls (l : list Event) : list AiRequest :=
  omap (fun e => match e with AiCall r => Some r | _ => None end) l.

(** A world in which nothing has happened yet. *)
Definition initialWorld : World :=
  {| ui := {| pdfFile := None; progress := atStep Idle; filters := noFilters;
              chat := None; savedCatalogs := []; selectedCatalog := None;
              isGeneratingSummary := false |};
     firestore := ∅;
     events := [] |}.

(** ** The record a run assembles *)

(** The summary a run ends up with for the text [t]: none is asked for an
    empty text, and a failed generation leaves the empty string. *)
Definition summaryFor (env : Env) (t : jsstring) : jsstring :=
  if truthy t then valueOr [] (generateSummary env t).1 else [].

(** [newCatalogData] of [handleExtractData]. *)
Definition pdfRecord (env : Env) (file : jsstring) (pageImages : list jsstring)
    (t : jsstring) (j : JsonData) : CatalogData :=
  {| fileName := file; createdAt := new_Date env;
     extractedData := parsedData j; rawJson := jd_rawJson j;
     rawText := t; summary := Some (summaryFor env t); images := Some pageImages |}.


(** [setChat] as both runs call it: a chat only for a non-empty list. *)
Definition chatFor (rows : list CarSpecification) : option Chat :=
  match rows with
  | [] => None
  | _ :: _ => Some (createChat rows)
  end.

(** ** The URL form ([components/UrlInput.tsx]) *)

(** [handleSubmit]: the string handed to [onUrlSubmit], if any. *)
Definition UrlInput_handleSubmit (url : jsstring) : option jsstring :=
  if truthy (trim url) then Some (trim url) else None.

(** ** More of the component ([App.tsx]) *)

(** The property an edit writes, with the value it writes:
    [{ ...item, [key]: value }]. *)
Inductive CellEdit :=
| Edit_id (value : jsstring)
| Edit_manufacturer (value : option jsstring)
| Edit_modelName (value : option jsstring)
| Edit_grade (value : option jsstring)
| Edit_price (value : option Z)
| Edit_issueDate (value : option jsstring)
| Edit_engineType (value : option jsstring)
| Edit_displacement (value : option jsstring)
| Edit_maxPower (value : option jsstring)
| Edit_maxTorque (value : option jsstring)
| Edit_fuelEconomy (value : option jsstring)
| Edit_options (value : option (list jsstring)).

Definition applyEdit (item : CarSpecification) (edit : CellEdit) : CarSpecification :=
  {| car_id := match edit with Edit_id v => v | _ => car_id item end;
     manufacturer := match edit with Edit_manufacturer v => v | _ => manufacturer item end;
     modelName := match edit with Edit_modelName v => v | _ => modelName item end;
     grade := match edit with Edit_grade v => v | _ => grade item end;
     price := match edit with Edit_price v => v | _ => price item end;
     issueDate := match edit with Edit_issueDate v => v | _ => issueDate item end;
     engineType := match edit with Edit_engineType v => v | _ => engineType item end;
     displacement := match edit with Edit_displacement v => v | _ => displacement item end;
     maxPower := match edit with Edit_maxPower v => v | _ => maxPower item end;
     maxTorque := match edit with Edit_maxTorque v => v | _ => maxTorque item end;
     fuelEconomy := match edit with Edit_fuelEconomy v => v | _ => fuelEconomy item end;
     options := match edit with Edit_options v => v | _ => options item end |}.

(** [{ ...prev, extractedData }] *)
Definition with_extractedData (d : CatalogData) (rows : list CarSpecification)
  : CatalogData :=
  {| fileName := fileName d; createdAt := createdAt d;
     extractedData := rows; rawJson := rawJson d;
     rawText := rawText d; summary := summary d; images := images d |}.

Definition handleCellChange (rowId : jsstring) (edit : CellEdit) : M unit :=
  fun w =>
    match selectedCatalog (ui w) with
    | None => (tt, w)
    | Some selected =>
      let updatedData :=
        map (fun item => if decide (car_id item = rowId) then applyEdit item edit else item)
          (extractedData (data selected)) in
      setSelectedCatalog
        (Some {| id := id selected;
                 data := with_extractedData (data selected) updatedData |}) w
    end.

Section View.
Variable env : Env.

(** [filters.x ? item.x === filters.x : true] *)
Definition matchesFilter (filter : jsstring) (value : option jsstring) : bool :=
  if truthy filter then bool_decide (value = Some filter) else true.

(** [item.options && item.options.some(opt => opt.toLowerCase().includes(searchOption))] *)
Definition hasOption (searchOption : jsstring) (opts : option (list jsstring)) : bool :=
  match opts with
  | None => false
  | Some l => existsb (fun opt => includes searchOption (toLowerCase env opt)) l
  end.

Definition passesFilters (f : Filters) (item : CarSpecification) : bool :=
  let searchOption := toLowerCase env (flt_option f) in
  matchesFilter (flt_manufacturer f) (manufacturer item)
  && matchesFilter (flt_modelName f) (modelName item)
  && matchesFilter (flt_issueDate f) (issueDate item)
  && (if truthy searchOption then hasOption searchOption (options item) else true).

(** The memo [filteredData]. *)
Definition filteredData (selected : option (CatalogRecord jsstring)) (f : Filters)
  : list CarSpecification :=
  match selected with
  | None => []
  | Some c => List.filter (passesFilters f) (extractedData (data c))
  end.

End View.



(** ** The filter controls ([components/FilterControls.tsx]) *)

(** [[...new Set(values.filter(Boolean))]]: the non-empty values, each once,
    in order of first occurrence. *)
Fixpoint distinctValues (seen : list jsstring) (values : list (option jsstring))
  : list jsstring :=
  match values with
  | [] => []
  | Some (c :: r) :: rest =>
    if bool_decide ((c :: r) ∈ seen) then distinctValues seen rest
    else (c :: r) :: distinctValues ((c :: r) :: seen) rest
  | _ :: rest => distinctValues seen rest
  end.

(** The model names offered by [filterOptions] for the manufacturer chosen. *)
Definition modelNameOptions (rows : list CarSpecification) (manufacturerFilter : jsstring)
  : list jsstring :=
  let filteredByManufacturer :=
    if truthy manufacturerFilter
    then List.filter (fun item => bool_decide (manufacturer item = Some manufacturerFilter)) rows
    else rows in
  distinctValues [] (map modelName filteredByManufacturer).

(** The names of the filter inputs, and [handleFilterChange]. *)
Inductive FilterName := F_manufacturer | F_modelName | F_issueDate | F_option.

Definition handleFilterChange (name : FilterName) (value : jsstring) (prev : Filters)
  : Filters :=
  match name with
  | F_manufacturer =>
    {| flt_manufacturer := value; flt_modelName := [];
       flt_issueDate := flt_issueDate prev; flt_option := flt_option prev |}
  | F_modelName =>
    {| flt_manufacturer := flt_manufacturer prev; flt_modelName := value;
       flt_issueDate := flt_issueDate prev; flt_option := flt_option prev |}
  | F_issueDate =>
    {| flt_manufacturer := flt_manufacturer prev; flt_modelName := flt_modelName prev;
       flt_issueDate := value; flt_option := flt_option prev |}
  | F_option =>
    {| flt_manufacturer := flt_manufacturer prev; flt_modelName := flt_modelName prev;
       flt_issueDate := flt_issueDate prev; flt_option := value |}
  end.

(** ** The table's option cell ([components/CarDataDisplay.tsx]) *)

(** [s.split(',')] *)
Fixpoint split_on (sep : N) (s : jsstring) : list jsstring :=
  match s with
  | [] => [[]]
  | c :: r =>
    if c =? sep then [] :: split_on sep r
    else match split_on sep r with
         | piece :: pieces => (c :: piece) :: pieces
         | [] => [[c]]
         end
  end.

(** What the cell shows: [(row.options || []).join(', ')]. *)
Definition showOptions (opts : option (list jsstring)) : jsstring :=
  join (js ", ") (default [] opts).

(** What an edit of the cell writes:
    [val.split(',').map(s => s.trim()).filter(Boolean)]. *)
Definition parseOptions (val : jsstring) : list jsstring :=
  List.filter truthy (map trim (split_on 0x2C val)).

(** ** The CSV export ([utils/export.ts]) *)

(** A property value of a row: [row[key]]. *)
Inductive Cell :=
| CellNull
| CellText (s : jsstring)
| CellNumber (z : Z)
| CellList (l : list jsstring).

(** [String(cell)] *)
Definition String_of_cell (cell : Cell) : jsstring :=
  match cell with
  | CellNull => js "null"
  | CellText s => s
  | CellNumber z =>
    if (z <? 0)%Z then 0x2D :: decimal (Z.to_N (- z)) else decimal (Z.to_N z)
  | CellList l => join (js ",") l
  end.

(** The [replace] of [escapeCsvCell]: every double quote is written twice. *)
Fixpoint doubleQuotes (s : jsstring) : jsstring :=
  match s with
  | [] => []
  | c :: r => if c =? 0x22 then 0x22 :: 0x22 :: doubleQuotes r else c :: doubleQuotes r
  end.

Definition escapeCsvCell (cell : Cell) : jsstring :=
  match cell with
  | CellNull => []
  | _ =>
    let str := String_of_cell cell in
    if includes [0x2C] str || includes [0x22] str || includes [0x0A] str
    then 0x22 :: doubleQuotes str ++ [0x22]
    else str
  end.

Inductive CarKey :=
| K_id | K_manufacturer | K_modelName | K_grade | K_price | K_issueDate
| K_engineType | K_displacement | K_maxPower | K_maxTorque | K_fuelEconomy
| K_options.

Definition textCell (v : option jsstring) : Cell :=
  match v with Some s => CellText s | None => CellNull end.

(** [row[key]] *)
Definition cellOf (row : CarSpecification) (key : CarKey) : Cell :=
  match key with
  | K_id => CellText (car_id row)
  | K_manufacturer => textCell (manufacturer row)
  | K_modelName => textCell (modelName row)
  | K_grade => textCell (grade row)
  | K_price => match price row with Some z => CellNumber z | None => CellNull end
  | K_issueDate => textCell (issueDate row)
  | K_engineType => textCell (engineType row)
  | K_displacement => textCell (displacement row)
  | K_maxPower => textCell (maxPower row)
  | K_maxTorque => textCell (maxTorque row)
  | K_fuelEconomy => textCell (fuelEconomy row)
  | K_options => match options row with Some l => CellList l | None => CellNull end
  end.

(** The text [exportToCsv] hands to [downloadFile]. *)
Definition csvContent (rows : list CarSpecification) (headers : list jsstring)
    (keys : list CarKey) : jsstring :=
  let headerRow := join (js ",") headers in
  let dataRows :=
    map (fun row => join (js ",") (map (fun key => escapeCsvCell (cellOf row key)) keys))
      rows in
  join LF (headerRow :: dataRows).

(** ** The progress display ([components/ProgressTracker.tsx]) *)

Definition steps : list ProgressStep :=
  [Reading; Converting; ExtractingText; ExtractingJson; Saving].

Definition isInAIExtraction (s : ProgressStep) : bool :=
  bool_decide (s = ExtractingText) || bool_decide (s = ExtractingJson).

Inductive StepStatus := completed | in_progress | pending.

Definition getStepStatus (p : ProgressState) (stepKey : ProgressStep) : StepStatus :=
  if bool_decide (stepKey ∈ completedSteps p) then completed
  else if isInAIExtraction (step p) && isInAIExtraction stepKey then in_progress
  else if bool_decide (step p = stepKey) then in_progress
  else pending.

(** A list of statuses reads completed, then in progress, then pending. *)
Definition statusBefore (a b : StepStatus) : Prop :=
  match a, b with
  | completed, _ => True
  | in_progress, completed => False
  | in_progress, _ => True
  | pending, pending => True
  | pending, _ => False
  end.

(** ** Notions the properties are stated with *)

(** A promise that has not settled when the timer of [withTimeout] fires. *)
Definition late {A} (p : Promise A) (ms : N) : bool :=
  match p with
  | SettlesAt t _ => ms <=? t
  | NeverSettles => true
  end.

(** The creations of a history of the object store. *)
Definition isSave (op : IndexedDb.Op) : bool :=
  match op with IndexedDb.Save _ => true | IndexedDb.Delete _ => false end.

(** An option as the table can show and read back: not empty, without
    surrounding white space, without a comma. *)
Definition plainOption (o : jsstring) : Prop :=
  o <> [] /\ trim o = o /\ 0x2C ∉ o.

(** The tracker shows the steps of [p] as completed ones, then the ones in
    progress, then the pending ones. *)
Definition readsInOrder (p : ProgressState) : Prop :=
  Sorted statusBefore (map (getStepStatus p) steps).

(** ** The first version of the component ([App.tsx], with the IndexedDB store) *)

Module Legacy.

(** The component's state ([useState]). *)
Record State := {
  st_pdfFile : option jsstring;
  st_extractedData : list CarSpecification;
  st_rawJsonOutput : jsstring;
  st_rawTextOutput : jsstring;
  st_isLoading : bool;
  st_isJsonLoading : bool;
  st_error : option jsstring;
  st_statusMessage : jsstring;
  st_filters : Filters;
  st_chat : option Chat;
  st_savedCatalogs : list (CatalogRecord Z);
  st_selectedCatalogId : option Z
}.

Record World := {
  state : State;
  store : IndexedDb.ObjectStore
}.

(** The errors the requests to the object store raise, if any. *)
Record Faults := {
  saveFault : option Thrown;
  listFault : option Thrown
}.

Definition noFaults : Faults :=
  {| saveFault := None; listFault := None |}.

Definition MSG_PROCESS_FIRST : jsstring :=
  Eval vm_compute in js "最初にPDFを処理してください。".
Definition STATUS_STARTED : jsstring :=
  Eval vm_compute in js "AIによるデータ抽出を開始しました...".
Definition STATUS_TEXT : jsstring :=
  Eval vm_compute in js "AIがテキストを抽出中です...".
Definition STATUS_JSON : jsstring :=
  Eval vm_compute in js "AIが構造化データを生成中です...".
Definition STATUS_SAVING : jsstring :=
  Eval vm_compute in js "抽出データをデータベースに保存中...".
Definition STATUS_COMPLETE : jsstring :=
  Eval vm_compute in js "データ抽出と保存が完了しました。".
Definition STATUS_PARTIAL : jsstring :=
  Eval vm_compute in js "一部エラーが発生しましたが、データは保存されました。".
Definition STATUS_NOT_SAVED : jsstring :=
  Eval vm_compute in js "データ抽出は完了しましたが、データベースへの保存に失敗しました。".
Definition MSG_DB_FAILED : jsstring :=
  Eval vm_compute in js "データベースへの保存に失敗しました。".

(** [setError(prev => prev ? `${prev}\n${msg}` : msg)] *)
Definition appendError (msg : jsstring) (prev : option jsstring) : option jsstring :=
  match prev with
  | Some (c :: r) => Some ((c :: r) ++ LF ++ msg)
  | _ => Some msg
  end.

(** [!error] *)
Definition noError (e : option jsstring) : bool :=
  match e with
  | Some (_ :: _) => false
  | _ => true
  end.

(** The state setters [handleExtractData] calls before the first [await]. *)
Definition resetForExtraction (s : State) : State :=
  {| st_pdfFile := st_pdfFile s;
     st_extractedData := [];
     st_rawJsonOutput := [];
     st_rawTextOutput := [];
     st_isLoading := true;
     st_isJsonLoading := true;
     st_error := None;
     st_statusMessage := STATUS_STARTED;
     st_filters := noFilters;
     st_chat := None;
     st_savedCatalogs := st_savedCatalogs s;
     st_selectedCatalogId := st_selectedCatalogId s |}.

(** The first [try]: awaiting the text. *)
Definition awaitText (textResult : Settled jsstring) (s : State) : State :=
  {| st_pdfFile := st_pdfFile s;
     st_extractedData := st_extractedData s;
     st_rawJsonOutput := st_rawJsonOutput s;
     st_rawTextOutput :=
       match textResult with
       | Fulfilled t => t
       | Rejected _ => st_rawTextOutput s
       end;
     st_isLoading := false;
     st_isJsonLoading := st_isJsonLoading s;
     st_error :=
       match textResult with
       | Fulfilled _ => st_error s
       | Rejected err => Some (messageOr MSG_TEXT_UNKNOWN err)
       end;
     st_statusMessage := STATUS_TEXT;
     st_filters := st_filters s;
     st_chat := st_chat s;
     st_savedCatalogs := st_savedCatalogs s;
     st_selectedCatalogId := st_selectedCatalogId s |}.

(** The second [try]: awaiting the structured data. *)
Definition awaitJson (jsonResult : Settled JsonData) (s : State) : State :=
  {| st_pdfFile := st_pdfFile s;
     st_extractedData :=
       match jsonResult with
       | Fulfilled j => parsedData j
       | Rejected _ => st_extractedData s
       end;
     st_rawJsonOutput :=
       match jsonResult with
       | Fulfilled j => jd_rawJson j
       | Rejected _ => st_rawJsonOutput s
       end;
     st_rawTextOutput := st_rawTextOutput s;
     st_isLoading := st_isLoading s;
     st_isJsonLoading := false;
     st_error :=
       match jsonResult with
       | Fulfilled _ => st_error s
       | Rejected err => appendError (messageOr MSG_JSON_UNKNOWN err) (st_error s)
       end;
     st_statusMessage := STATUS_JSON;
     st_filters := st_filters s;
     st_chat :=
       match jsonResult with
       | Fulfilled j =>
         match parsedData j with
         | [] => st_chat s
         | _ :: _ => Some (createChat (parsedData j))
         end
       | Rejected _ => st_chat s
       end;
     st_savedCatalogs := st_savedCatalogs s;
     st_selectedCatalogId := st_selectedCatalogId s |}.

(** The state after the third [try], by what happened in it. *)
Definition afterSave (closureError : option jsstring)
    (listed : Settled (list (CatalogRecord Z))) (created : option Z) (s : State) : State :=
  {| st_pdfFile := st_pdfFile s;
     st_extractedData := st_extractedData s;
     st_rawJsonOutput := st_rawJsonOutput s;
     st_rawTextOutput := st_rawTextOutput s;
     st_isLoading := st_isLoading s;
     st_isJsonLoading := st_isJsonLoading s;
     st_error :=
       match created, listed with
       | Some _, Fulfilled _ => st_error s
       | _, _ => appendError MSG_DB_FAILED (st_error s)
       end;
     st_statusMessage :=
       match created, listed with
       | Some _, Fulfilled _ =>
         if noError closureError then STATUS_COMPLETE else STATUS_PARTIAL
       | _, _ => STATUS_NOT_SAVED
       end;
     st_filters := st_filters s;
     st_chat := st_chat s;
     st_savedCatalogs :=
       match created, listed with
       | Some _, Fulfilled l => l
       | _, _ => st_savedCatalogs s
       end;
     st_selectedCatalogId :=
       match created, listed with
       | Some key, Fulfilled _ => Some key
       | _, _ => st_selectedCatalogId s
       end |}.

(** [handleExtractData], given what the two promises settle to, the time
    [new Date()] reads and the value of [error] in the closure the function
    was created in. *)
Definition handleExtractData (faults : Faults) (closureError : option jsstring) (now : Z)
    (textResult : Settled jsstring) (jsonResult : Settled JsonData)
    (images : list jsstring) (fileName : jsstring) (w : World) : World :=
  match images with
  | [] =>
    let s := state w in
    {| state :=
         {| st_pdfFile := st_pdfFile s;
            st_extractedData := st_extractedData s;
            st_rawJsonOutput := st_rawJsonOutput s;
            st_rawTextOutput := st_rawTextOutput s;
            st_isLoading := st_isLoading s;
            st_isJsonLoading := st_isJsonLoading s;
            st_error := Some MSG_PROCESS_FIRST;
            st_statusMessage := st_statusMessage s;
            st_filters := st_filters s;
            st_chat := st_chat s;
            st_savedCatalogs := st_savedCatalogs s;
            st_selectedCatalogId := st_selectedCatalogId s |};
       store := store w |}
  | _ :: _ =>
    let s := awaitJson jsonResult (awaitText textResult (resetForExtraction (state w))) in
    let extractedRawText := valueOr [] textResult in
    let extractedJsonData := valueOr {| parsedData := []; jd_rawJson := [] |} jsonResult in
    let newCatalogData :=
      {| fileName := fileName;
         createdAt := now;
         extractedData := parsedData extractedJsonData;
         rawJson := jd_rawJson extractedJsonData;
         rawText := extractedRawText;
         summary := None;
         images := None |} in
    match IndexedDb.saveCatalog (saveFault faults) newCatalogData (store w) with
    | (Rejected _, db') =>
      {| state := afterSave closureError (Fulfilled []) None s; store := db' |}
    | (Fulfilled newCatalog, db') =>
      {| state :=
           afterSave closureError (IndexedDb.getAllCatalogs (listFault faults) db')
             (Some (id newCatalog)) s;
         store := db' |}
    end
  end.

(** [useState<string | null>(null)]: the value of [error] in the first
    render. [handleFileChange] is memoised with an empty dependency list, so
    the [handleExtractData] it calls is the one of the first render. *)
Definition firstRenderError : option jsstring := None.

(** The call [handleFileChange] makes once the pages are rendered. *)
Definition extractAfterUpload (faults : Faults) (now : Z)
    (textResult : Settled jsstring) (jsonResult : Settled JsonData)
    (images : list jsstring) (fileName : jsstring) (w : World) : World :=
  handleExtractData faults firstRenderError now textResult jsonResult images fileName w.

(** What the branches leave in [error]. *)
Definition branchErrors (textResult : Settled jsstring) (jsonResult : Settled JsonData)
  : option jsstring :=
  match failureOf MSG_TEXT_UNKNOWN textResult ++ failureOf MSG_JSON_UNKNOWN jsonResult with
  | [] => None
  | [m] => Some m
  | m1 :: m2 :: _ => if truthy m1 then Some (m1 ++ LF ++ m2) else Some m2
  end.

End Legacy.

(** ** Sample environments *)

Definition asciiLower (s : jsstring) : jsstring :=
  map (fun c => if (0x41 <=? c) && (c <=? 0x5A) then c + 0x20 else c) s.

(** A URL parser good enough for samples: [https://host/...]. *)
Definition sampleParseURL (url : jsstring) : option jsstring :=
  if startsWith (js "https://") url
  then Some (takeWhileNot 0x2F (drop 8 url))
  else None.

(** An environment built from the answers of the model, of [JSON.parse],
    of [addDoc] and of the file reader; everything else works. *)
Definition sampleEnv
    (model : AiRequest -> Promise jsstring)
    (parse : jsstring -> Settled (list CarSpecification))
    (added : Settled jsstring)
    (file : FileOutcome) : Env :=
  {| toLowerCase := asciiLower;
     JSON_parse := parse;
     Date_now := 1700000000000;
     new_Date := 1700000000000%Z;
     parseURL := sampleParseURL;
     invalidURLMessage := fun _ => js "Invalid URL";
     encodeURIComponent := fun s => Fulfilled s;
     generateContent := model;
     fetch := fun _ => Fulfilled {| ok := true; status := 200;
                                    json_contents := Fulfilled (js "<html></html>") |};
     extractCarDataFromWebPage := fun _ _ =>
       Fulfilled {| wd_parsedData := []; wd_rawJson := js "[]";
                    wd_rawText := js "text" |};
     readFile := fun _ => file;
     uploadImagesToStorage := fun imgs _ => Fulfilled (map (fun _ => js "https://img") imgs);
     addDoc_outcome := added;
     getDocs_fault := None;
     deleteDoc_fault := fun _ => None;
     updateDoc_fault := fun _ => None;
     updateDoc_notFound := fun _ =>
       ThrownError {| errClass := OtherError; message := js "not-found" |} |}.

Definition threePages : list jsstring :=
  [js "data:image/jpeg;base64,AAAA"; js "data:image/jpeg;base64,BBBB";
   js "data:image/jpeg;base64,CCCC"].

Definition rateLimited : Promise jsstring :=
  SettlesAt 900 (Rejected (newError (js "429 RESOURCE_EXHAUSTED"))).

(** The model transcribes the pages but is rate limited on the records. *)
Definition textOnlyModel (request : AiRequest) : Promise jsstring :=
  match request with
  | RawTextRequest _ => SettlesAt 1200 (Fulfilled (js "Page1 Page2 Page3"))
  | CarDataRequest _ => rateLimited
  | SummaryRequest _ => SettlesAt 800 (Fulfilled (js "summary"))
  end.

(** The model is rate limited on every request. *)
Definition failingModel (request : AiRequest) : Promise jsstring := rateLimited.

(** The model answers both extractions, with nothing in them. *)
Definition emptyModel (request : AiRequest) : Promise jsstring :=
  match request with
  | RawTextRequest _ => SettlesAt 1200 (Fulfilled (js "  "))
  | CarDataRequest _ => SettlesAt 1500 (Fulfilled (js "[]"))
  | SummaryRequest _ => SettlesAt 800 (Fulfilled (js "summary"))
  end.

(** The model fails on the text and finds no record. *)
Definition noTextNoRecordModel (request : AiRequest) : Promise jsstring :=
  match request with
  | RawTextRequest _ => rateLimited
  | CarDataRequest _ => SettlesAt 1500 (Fulfilled (js "[]"))
  | SummaryRequest _ => SettlesAt 800 (Fulfilled (js "summary"))
  end.

(** The model answers both extractions but not the summary. *)
Definition noSummaryModel (request : AiRequest) : Promise jsstring :=
  match request with
  | RawTextRequest _ => SettlesAt 1200 (Fulfilled (js "Page1 Page2 Page3"))
  | CarDataRequest _ => SettlesAt 1500 (Fulfilled (js "[]"))
  | SummaryRequest _ => NeverSettles
  end.

(** The model answers every request. *)
Definition answeringModel (request : AiRequest) : Promise jsstring :=
  match request with
  | RawTextRequest _ => SettlesAt 1200 (Fulfilled (js "Page1 Page2 Page3"))
  | CarDataRequest _ => SettlesAt 1500 (Fulfilled (js "[]"))
  | SummaryRequest _ => SettlesAt 800 (Fulfilled (js " summary "))
  end.

Definition parseNothing (text : jsstring) : Settled (list CarSpecification) :=
  Fulfilled [].

Definition sampleData : CatalogData :=
  {| fileName := js "catalog.pdf"; createdAt := 1700000000000%Z;
     extractedData := []; rawJson := js "[]"; rawText := js "Page1";
     summary := None; images := None |}.

(** An environment in which the model always fails and nothing is uploaded. *)
Definition quietEnv : Env :=
  sampleEnv failingModel parseNothing (Fulfilled (js "doc1")) PdfFails.

(** Environments for an upload of three pages, by the model's behaviour. *)
Definition uploadEnv (model : AiRequest -> Promise jsstring) : Env :=
  sampleEnv model parseNothing (Fulfilled (js "doc1")) (PagesRendered threePages).

(** The error the gateway reports for a rate-limited request. *)
Definition rateLimitedError (context : jsstring) : Thrown :=
  newError (js "APIの利用回数制限を超えました。しばらく待ってから再度お試しください。(コンテキスト: "
              ++ context ++ js ")").

(** A stored document without a summary, and a world whose store holds it. *)
Definition sampleDoc : Firestore.CatalogDoc :=
  Firestore.docOfData sampleData.

Definition worldWithDoc : World :=
  {| ui := ui initialWorld;
     firestore := {[ js "doc1" := sampleDoc ]};
     events := [] |}.

(** Two records, as [JSON.parse] returns them (the identifiers are
    assigned afterwards). *)
Definition sampleCar (maker model : jsstring) (opts : option (list jsstring))
  : CarSpecification :=
  {| car_id := []; manufacturer := Some maker; modelName := Some model;
     grade := None; price := Some 2500000%Z; issueDate := Some (js "2024-01");
     engineType := None; displacement := None; maxPower := None;
     maxTorque := None; fuelEconomy := None; options := opts |}.

Definition twoCars : list CarSpecification :=
  [ sampleCar (js "Toyota") (js "Corolla") (Some [js "Sunroof"; js "Navigation"]);
    sampleCar (js "Honda") (js "Civic") None ].

Definition parseTwoCars (text : jsstring) : Settled (list CarSpecification) :=
  Fulfilled twoCars.

(** The model answers the record extraction only. *)
Definition recordsOnlyModel (request : AiRequest) : Promise jsstring :=
  match request with
  | RawTextRequest _ => rateLimited
  | CarDataRequest _ => SettlesAt 1500 (Fulfilled (js "[{},{}]"))
  | SummaryRequest _ => SettlesAt 800 (Fulfilled (js "summary"))
  end.

(** An upload of three pages in which two records are found. *)
Definition catalogEnv (model : AiRequest -> Promise jsstring) : Env :=
  sampleEnv model parseTwoCars (Fulfilled (js "doc1")) (PagesRendered threePages).

(** An upload of a PDF without pages. *)
Definition emptyPdfEnv : Env :=
  sampleEnv answeringModel parseNothing (Fulfilled (js "doc1")) (PagesRendered []).

(** [env], except that [getDocs] fails. *)
Definition withGetDocsFault (env : Env) (e : Thrown) : Env :=
  {| toLowerCase := toLowerCase env;
     JSON_parse := JSON_parse env;
     Date_now := Date_now env;
     new_Date := new_Date env;
     parseURL := parseURL env;
     invalidURLMessage := invalidURLMessage env;
     encodeURIComponent := encodeURIComponent env;
     generateContent := generateContent env;
     fetch := fetch env;
     extractCarDataFromWebPage := extractCarDataFromWebPage env;
     readFile := readFile env;
     uploadImagesToStorage := uploadImagesToStorage env;
     addDoc_outcome := addDoc_outcome env;
     getDocs_fault := Some e;
     deleteDoc_fault := deleteDoc_fault env;
     updateDoc_fault := updateDoc_fault env;
     updateDoc_notFound := updateDoc_notFound env |}.

(** [env], except that the proxy answers every request with [response]. *)
Definition withResponse (env : Env) (response : Response) : Env :=
  {| toLowerCase := toLowerCase env;
     JSON_parse := JSON_parse env;
     Date_now := Date_now env;
     new_Date := new_Date env;
     parseURL := parseURL env;
     invalidURLMessage := invalidURLMessage env;
     encodeURIComponent := encodeURIComponent env;
     generateContent := generateContent env;
     fetch := fun _ => Fulfilled response;
     extractCarDataFromWebPage := extractCarDataFromWebPage env;
     readFile := readFile env;
     uploadImagesToStorage := uploadImagesToStorage env;
     addDoc_outcome := addDoc_outcome env;
     getDocs_fault := getDocs_fault env;
     deleteDoc_fault := deleteDoc_fault env;
     updateDoc_fault := updateDoc_fault env;
     updateDoc_notFound := updateDoc_notFound env |}.

Definition unavailable : Thrown := newError (js "unavailable").

(** A stored record with two rows, selected in the view. *)
Definition sampleRecord : CatalogRecord jsstring :=
  {| id := js "doc1";
     data := {| fileName := js "catalog.pdf"; createdAt := 1700000000000%Z;
                extractedData := assignIds quietEnv 0 twoCars; rawJson := js "[{},{}]";
                rawText := js "Page1"; summary := Some (js "summary");
                images := Some [] |} |}.

Definition worldWithSelection : World :=
  {| ui := {| pdfFile := None; progress := atStep Idle; filters := noFilters;
              chat := Some (createChat (extractedData (data sampleRecord)));
              savedCatalogs := [sampleRecord];
              selectedCatalog := Some sampleRecord;
              isGeneratingSummary := false |};
     firestore := {[ js "doc1" := Firestore.docOfData (data sampleRecord) ]};
     events := [] |}.

(** The first version's state before anything was uploaded. *)
Definition legacyWorld : Legacy.World :=
  {| Legacy.state :=
       {| Legacy.st_pdfFile := None;
          Legacy.st_extractedData := [];
          Legacy.st_rawJsonOutput := [];
          Legacy.st_rawTextOutput := [];
          Legacy.st_isLoading := false;
          Legacy.st_isJsonLoading := false;
          Legacy.st_error := None;
          Legacy.st_statusMessage := js "PDFをアップロードしてデータ抽出を開始します。";
          Legacy.st_filters := noFilters;
          Legacy.st_chat := None;
          Legacy.st_savedCatalogs := [];
          Legacy.st_selectedCatalogId := None |};
     Legacy.store := IndexedDb.replay [IndexedDb.Save sampleData] |}.

(** * Properties *)

(** ** Strings *)

Example js_ascii : js "429" = [0x34; 0x32; 0x39].
Proof. reflexivity. Qed.

Example js_kanji : js "要約" = [0x8981; 0x7D04].
Proof. reflexivity. Qed.

Example trim_example : trim (js "  a b 　") = js "a b".
Proof. reflexivity. Qed.

Example dataPart_example :
  dataPart (js "data:image/jpeg;base64,AAAA") = Some (js "AAAA").
Proof. reflexivity. Qed.

Example timeout_message :
  withTimeout (@NeverSettles unit) 120000
  = Rejected (newError (js "Request timed out after 120000 ms")).
Proof. reflexivity. Qed.

Lemma trimStart_blank (s : jsstring) :
  forallb isWhiteSpace s = true -> trimStart s = [].
Proof.
  induction s as [|c r IH]; simpl; [reflexivity|].
  intros H. apply andb_prop in H as [Hc Hr]. rewrite Hc. auto.
Qed.

Lemma trim_blank (s : jsstring) :
  forallb isWhiteSpace s = true -> trim s = [].
Proof.
  intros H. unfold trim, trimEnd. rewrite (trimStart_blank s H). reflexivity.
Qed.

Lemma join_two (sep a b : jsstring) : join sep [a; b] = a ++ sep ++ b.
Proof. reflexivity. Qed.

(** ** The gateway *)

(** Claim C10. For a text that is empty or made of white space only,
    [generateSummary] is fulfilled with the fixed placeholder and sends no
    request to the model; in particular it does not throw. *)
Theorem generateSummary_blank_text (env : Env) (text : jsstring) :
  forallb isWhiteSpace text = true ->
  generateSummary env text = (Fulfilled MSG_NO_SUMMARY_TEXT, []).
Proof.
  intros H. unfold generateSummary. rewrite (trim_blank text H). reflexivity.
Qed.

Lemma generateSummary_blank_text_witness :
  forallb isWhiteSpace (js " 　") = true
  /\ generateSummary (sampleEnv failingModel parseNothing (Rejected ThrownValue) PdfFails)
       (js " 　")
     = (Fulfilled (js "要約対象のテキストがありません。"), []).
Proof.
  split; [reflexivity|].
  apply (generateSummary_blank_text _ (js " 　")). reflexivity.
Defined.

(** A text with something to summarise does reach the model. *)
Example generateSummary_calls_the_model :
  generateSummary (sampleEnv textOnlyModel parseNothing (Rejected ThrownValue) PdfFails)
    (js "Page1")
  = (Fulfilled (js "summary"), [SummaryRequest (js "Page1")]).
Proof. reflexivity. Qed.

(** ** The IndexedDB store *)

Module IndexedDbFacts.
Import IndexedDb.

Lemma StronglySorted_filter {A} (R : relation A) (P : A -> Prop)
    `{forall x, Decision (P x)} (l : list A) :
  StronglySorted R l -> StronglySorted R (filter P l).
Proof.
  induction 1 as [|x l Hl IH Hx]; [constructor|].
  rewrite filter_cons. destruct (decide (P x)); [|exact IH].
  constructor; [exact IH|].
  apply Forall_forall. intros y Hy.
  apply list_elem_of_filter in Hy as [_ Hy].
  rewrite Forall_forall in Hx. auto.
Qed.

Lemma ascending_initDB : ascending initDB.
Proof. split; constructor. Qed.

Lemma ascending_apply db op : ascending db -> ascending (apply db op).
Proof.
  intros [Hs Hb]. destruct op as [catalog|key]; simpl.
  - split; simpl.
    + apply StronglySorted_app_2; [| exact Hs | repeat constructor].
      intros x y Hx Hy. apply list_elem_of_singleton in Hy as ->.
      rewrite Forall_forall in Hb. exact (Hb x Hx).
    + apply Forall_app. split.
      * eapply Forall_impl; [exact Hb|]. simpl. intros; lia.
      * repeat constructor. simpl. lia.
  - split; simpl.
    + apply StronglySorted_filter, Hs.
    + apply Forall_forall. intros c Hc.
      apply list_elem_of_filter in Hc as [_ Hc].
      rewrite Forall_forall in Hb. auto.
Qed.

Lemma ascending_replay ops db : ascending db -> ascending (fold_left apply ops db).
Proof.
  revert db. induction ops as [|op ops IH]; intros db H; simpl; [exact H|].
  apply IH, ascending_apply, H.
Qed.

(** Identifiers are never reused: a new record gets a key above all the
    keys of the store. *)
Lemma saveCatalog_fresh_key db catalog c db' :
  ascending db ->
  saveCatalog None catalog db = (Fulfilled c, db') ->
  Forall (fun old => (id old < id c)%Z) (records db).
Proof.
  intros [_ Hb] H. injection H as <- _. exact Hb.
Qed.

Lemma records_replay ops db :
  records (fold_left apply ops db)
  = reverse (newestFirst (keyGenerator db - 1) (reverse (records db)) ops).
Proof.
  revert db. induction ops as [|[catalog|key] ops IH]; intros db; simpl.
  - symmetry. apply reverse_involutive.
  - rewrite IH. simpl. rewrite reverse_snoc.
    replace (keyGenerator db + 1 - 1)%Z with (keyGenerator db) by lia.
    replace (keyGenerator db - 1 + 1)%Z with (keyGenerator db) by lia.
    reflexivity.
  - rewrite IH. simpl. rewrite filter_reverse. reflexivity.
Qed.

#[local] Instance newerFirst_trans : Transitive newerFirst.
Proof. unfold newerFirst. intros a b c. lia. Qed.

#[local] Instance newerFirst_total : Total newerFirst.
Proof. unfold newerFirst. intros a b. lia. Qed.

Lemma older_unique l x y :
  StronglySorted older l -> x ∈ l -> y ∈ l -> id x = id y -> x = y.
Proof.
  induction 1 as [|a l Hl IH Ha]; intros Hx Hy Hid.
  - inversion Hx.
  - rewrite Forall_forall in Ha. unfold older in Ha.
    apply elem_of_cons in Hx as [->|Hx], Hy as [->|Hy]; auto.
    + specialize (Ha y Hy). lia.
    + specialize (Ha x Hx). lia.
Qed.

Lemma Sorted_reverse_ascending l :
  StronglySorted older l -> Sorted newerFirst (reverse l).
Proof.
  intros H. apply StronglySorted_Sorted in H.
  apply Sorted_reverse in H.
  induction H as [|a r Hr IH Ha]; constructor; [exact IH|].
  destruct Ha; constructor. unfold flip, older, newerFirst in *. lia.
Qed.

(** Sorting an ascending array with the comparator reverses it. *)
Lemma sort_ascending l :
  StronglySorted older l -> merge_sort newerFirst l = reverse l.
Proof.
  intros H.
  apply (Sorted_unique_strong newerFirst).
  - intros x1 x2 H1 H2 R1 R2.
    apply (older_unique l); [exact H| | |].
    + rewrite <- (merge_sort_Permutation newerFirst l). exact H1.
    + apply elem_of_reverse. exact H2.
    + unfold newerFirst in *. lia.
  - apply Sorted_merge_sort, _.
  - apply Sorted_reverse_ascending, H.
  - rewrite merge_sort_Permutation, reverse_Permutation. reflexivity.
Qed.

Lemma getAllCatalogs_replay ops :
  getAllCatalogs None (replay ops) = Fulfilled (newestFirst 0 [] ops).
Proof.
  unfold getAllCatalogs, replay.
  rewrite sort_ascending by apply ascending_replay, ascending_initDB.
  rewrite records_replay. simpl. rewrite reverse_involutive. reflexivity.
Qed.

Example listing_after_three_saves_and_a_delete :
  getAllCatalogs None
    (replay [Save sampleData; Save sampleData; Delete 1; Save sampleData])
  = Fulfilled [Build_CatalogRecord 3%Z sampleData; Build_CatalogRecord 2%Z sampleData].
Proof. reflexivity. Qed.

End IndexedDbFacts.

(** ** The Firestore store *)

Module FirestoreFacts.
Import Firestore.

#[local] Instance laterFirst_total : Total laterFirst.
Proof. unfold laterFirst. intros a b. simpl. lia. Qed.

(** A [Date] survives the conversion to a [Timestamp] and back. *)
Lemma toDate_fromDate date : toDate (fromDate date) = date.
Proof.
  unfold toDate, fromDate. simpl.
  rewrite Z.div_mul by lia.
  pose proof (Z.div_mod date 1000). lia.
Qed.

Lemma getAllCatalogs_sorted env db :
  match getAllCatalogs env db with
  | Fulfilled listed =>
    exists docs, listed = map recordOfDoc docs
                 /\ docs ≡ₚ map_to_list db
                 /\ Sorted laterFirst docs
  | Rejected e => getDocs_fault env = Some e
  end.
Proof.
  unfold getAllCatalogs. destruct (getDocs_fault env) as [e|]; [reflexivity|].
  exists (merge_sort laterFirst (map_to_list db)).
  split; [reflexivity|]. split.
  - apply merge_sort_Permutation.
  - apply Sorted_merge_sort, _.
Qed.

(** What [saveCatalog] leaves in the collection when it succeeds. *)
Lemma saveCatalog_stores env catalog db c db' :
  saveCatalog env catalog db = (Fulfilled c, db') ->
  db' = <[id c := docOfData (data c)]> db
  /\ (exists urls, data c = with_images catalog urls).
Proof.
  unfold saveCatalog. intros H.
  destruct (match images catalog with
            | Some (i :: r) => uploadImagesToStorage env (i :: r) _
            | _ => Fulfilled []
            end) as [urls|?]; [|discriminate].
  destruct (addDoc_outcome env) as [docId|?]; [|discriminate].
  injection H as <- <-. simpl. split; [reflexivity | eauto].
Qed.

End FirestoreFacts.

(** Claim C9. Listing returns all the stored records, the newest first.
    For the IndexedDB store: after any history of creations and deletions,
    [getAllCatalogs] is the list of the records created and not deleted
    since, in reverse order of creation. For the Firestore store:
    [getAllCatalogs] returns the documents of the collection, each once, in
    descending order of their stored [createdAt]. *)
Theorem listing_is_newest_first :
  (forall ops : list IndexedDb.Op,
     IndexedDb.getAllCatalogs None (IndexedDb.replay ops)
     = Fulfilled (IndexedDb.newestFirst 0 [] ops))
  /\ (forall (env : Env) (db : gmap jsstring Firestore.CatalogDoc),
        match Firestore.getAllCatalogs env db with
        | Fulfilled listed =>
          exists docs, listed = map Firestore.recordOfDoc docs
                       /\ docs ≡ₚ map_to_list db
                       /\ Sorted Firestore.laterFirst docs
        | Rejected e => getDocs_fault env = Some e
        end).
Proof.
  split.
  - apply IndexedDbFacts.getAllCatalogs_replay.
  - apply FirestoreFacts.getAllCatalogs_sorted.
Qed.

(** ** Effects of a handler, read off its events *)

Lemma saveCalls_AiCall l : saveCalls (map AiCall l) = [].
Proof. induction l; [reflexivity | assumption]. Qed.

Lemma saveCalls_FetchCall l : saveCalls (map FetchCall l) = [].
Proof. induction l; [reflexivity | assumption]. Qed.

Lemma aiCalls_AiCall l : aiCalls (map AiCall l) = l.
Proof. induction l as [|x l IH]; [reflexivity | simpl; f_equal; exact IH]. Qed.

Lemma aiCalls_FetchCall l : aiCalls (map FetchCall l) = [].
Proof. induction l; [reflexivity | assumption]. Qed.

Lemma fetchCalls_AiCall l : fetchCalls (map AiCall l) = [].
Proof. induction l; [reflexivity | assumption]. Qed.

Lemma fetchCalls_FetchCall l : fetchCalls (map FetchCall l) = l.
Proof. induction l as [|x l IH]; [reflexivity | simpl; f_equal; exact IH]. Qed.

Lemma progressTrace_AiCall l : progressTrace (map AiCall l) = [].
Proof. induction l; [reflexivity | assumption]. Qed.

Lemma progressTrace_FetchCall l : progressTrace (map FetchCall l) = [].
Proof. induction l; [reflexivity | assumption]. Qed.

Create Rewrite HintDb events.

#[local] Hint Rewrite saveCalls_AiCall saveCalls_FetchCall aiCalls_AiCall
  aiCalls_FetchCall fetchCalls_AiCall fetchCalls_FetchCall progressTrace_AiCall
  progressTrace_FetchCall app_nil_r : events.

(** Splits the projections of an event list along its appends. *)
Ltac tidy_events :=
  unfold saveCalls, fetchCalls, aiCalls, progressTrace;
  repeat first [ rewrite omap_app | progress simpl ];
  fold saveCalls fetchCalls aiCalls progressTrace;
  autorewrite with events.

(** Finds an event in a list built by appends. *)
Ltac find_event :=
  repeat first
    [ apply list_elem_of_singleton; reflexivity
    | apply elem_of_app;
      first [ right; apply list_elem_of_singleton; reflexivity | left ] ].

(** ** Deleting *)

(** Claim C4, as the code has it. Deleting an identifier that is not in
    the store is a silent success: unless the medium itself fails,
    [deleteCatalog] is fulfilled and leaves the store as it was, in the
    IndexedDB store and in the Firestore store, and the handler that calls
    it completes. No error is raised for the missing record. *)
Theorem deleting_an_absent_identifier_succeeds
    (env : Env) (db : IndexedDb.ObjectStore) (n : Z) (w : World) (key : jsstring) :
  Forall (fun c => id c <> n) (IndexedDb.records db) ->
  firestore w !! key = None ->
  deleteDoc_fault env key = None ->
  getDocs_fault env = None ->
  IndexedDb.deleteCatalog None n db = (Fulfilled tt, db)
  /\ Firestore.deleteCatalog env key (firestore w) = (Fulfilled tt, firestore w)
  /\ (handleDeleteCatalog env key w).1 = Fulfilled tt
  /\ firestore (handleDeleteCatalog env key w).2 = firestore w.
Proof.
  intros Hn Hkey Hdel Hget.
  assert (Hidb : IndexedDb.delete n db = db).
  { destruct db as [kg recs]. unfold IndexedDb.delete. simpl in *. f_equal.
    induction Hn as [|c l Hc Hl IH]; [reflexivity|].
    rewrite filter_cons_True by exact Hc. f_equal. exact IH. }
  assert (Hfs : Firestore.deleteCatalog env key (firestore w) = (Fulfilled tt, firestore w)).
  { unfold Firestore.deleteCatalog. rewrite Hdel, delete_id by exact Hkey. reflexivity. }
  split; [unfold IndexedDb.deleteCatalog; rewrite Hidb; reflexivity|].
  split; [exact Hfs|].
  unfold handleDeleteCatalog, db_deleteCatalog, loadCatalogs, db_getAllCatalogs,
    Firestore.getAllCatalogs, bind, ret.
  rewrite Hfs, Hget. simpl.
  destruct (selectedCatalog (ui w)) as [c|]; simpl; [|split; reflexivity].
  destruct (decide (id c = key)); simpl; split; reflexivity.
Qed.

Lemma deleting_an_absent_identifier_witness :
  let db := IndexedDb.replay [IndexedDb.Save sampleData] in
  IndexedDb.deleteCatalog None 7 db = (Fulfilled tt, db)
  /\ Firestore.deleteCatalog quietEnv (js "missing") (firestore initialWorld)
     = (Fulfilled tt, firestore initialWorld)
  /\ (handleDeleteCatalog quietEnv (js "missing") initialWorld).1 = Fulfilled tt
  /\ firestore (handleDeleteCatalog quietEnv (js "missing") initialWorld).2
     = firestore initialWorld.
Proof.
  apply (deleting_an_absent_identifier_succeeds quietEnv
           (IndexedDb.replay [IndexedDb.Save sampleData]) 7 initialWorld (js "missing")).
  - repeat constructor. simpl. lia.
  - reflexivity.
  - reflexivity.
  - reflexivity.
Defined.

(** The claim as the specification states it fails: the identifier 7 is
    not in a store holding one record under the key 1, and deleting it is
    fulfilled, not rejected; likewise for a missing Firestore document. *)
Lemma delete_absent_counterexample :
  let db := IndexedDb.replay [IndexedDb.Save sampleData] in
  map id (IndexedDb.records db) = [1%Z]
  /\ (IndexedDb.deleteCatalog None 7 db).1 = Fulfilled tt
  /\ (Firestore.deleteCatalog quietEnv (js "missing") ∅).1 = Fulfilled tt.
Proof. repeat split. Qed.

(** ** The URL entry point *)

(** Claim C7. When the submitted string does not parse as a URL,
    [fetchWebPageContent] is rejected without handing anything to [fetch],
    and [handleUrlSubmit] ends in the error state having issued no fetch, no
    request to the model and no save. The message is the validation message
    when the platform's [TypeError] mentions [URL], as browsers' do. *)
Theorem invalid_url_never_reaches_the_network (env : Env) (url : jsstring) (w : World) :
  parseURL env url = None ->
  let reason := invalidURLMessage env url in
  let shown :=
    if includes (js "URL") reason then MSG_INVALID_URL
    else js "Webページの取得に失敗しました: " ++ reason in
  let w' := (handleUrlSubmit env url w).2 in
  fetchWebPageContent env url = (Rejected (newError shown), [])
  /\ fetchCalls (events w') = fetchCalls (events w)
  /\ aiCalls (events w') = aiCalls (events w)
  /\ saveCalls (events w') = saveCalls (events w)
  /\ firestore w' = firestore w
  /\ progress (ui w') = failedAfresh shown.
Proof.
  intros Hurl reason shown w'.
  assert (Hfetch : fetchWebPageContent env url = (Rejected (newError shown), [])).
  { unfold fetchWebPageContent, fetchWebPageContent_try, newURL. rewrite Hurl.
    simpl. fold reason. subst shown. destruct (includes (js "URL") reason); reflexivity. }
  split; [exact Hfetch|].
  subst w'. unfold handleUrlSubmit, handleUrlSubmit_try, resetStateForNewFile,
    console_error, bind, ret, emit.
  rewrite Hfetch. simpl.
  repeat split; try reflexivity; tidy_events; reflexivity.
Qed.

Lemma invalid_url_witness :
  let w' := (handleUrlSubmit quietEnv (js "not a url") initialWorld).2 in
  fetchWebPageContent quietEnv (js "not a url") = (Rejected (newError MSG_INVALID_URL), [])
  /\ fetchCalls (events w') = []
  /\ aiCalls (events w') = []
  /\ saveCalls (events w') = []
  /\ firestore w' = ∅
  /\ progress (ui w') = failedAfresh MSG_INVALID_URL.
Proof.
  apply (invalid_url_never_reaches_the_network quietEnv (js "not a url") initialWorld).
  reflexivity.
Defined.

(** A well-formed URL is fetched through the proxy. *)
Example valid_url_is_fetched :
  fetchCalls (events (handleUrlSubmit quietEnv (js "https://example.com/c") initialWorld).2)
  = [js "https://api.allorigins.win/get?url=https://example.com/c"].
Proof. vm_compute. reflexivity. Qed.

(** ** The pipeline run of an uploaded PDF *)

Opaque extractRawTextFromImages extractCarDataFromImages generateSummary.
Opaque Firestore.saveCatalog Firestore.getAllCatalogs.

Ltac run_handler :=
  unfold handleFileChange, handleExtractData, handleExtractData_try,
    handleExtractData_save, loadCatalogs, db_saveCatalog, db_getAllCatalogs,
    resetStateForNewFile, gateway, console_error, setTimeout, bind, ret, emit.

Section Runs.
Variable env : Env.
Variables (file : jsstring) (w : World) (pageImages : list jsstring).

(** The file was read and its pages rendered: both branches are dispatched. *)
Hypothesis rendered : readFile env file = PagesRendered pageImages.
Hypothesis nonempty : pageImages <> [].

Let textResult := (extractRawTextFromImages env pageImages).1.
Let jsonResult := (extractCarDataFromImages env pageImages).1.
Let failures :=
  failureOf MSG_TEXT_UNKNOWN textResult ++ failureOf MSG_JSON_UNKNOWN jsonResult.
Let w' := (handleFileChange env file w).2.

(** Any failed branch ends the run: the messages are joined, nothing is saved. *)
Lemma run_with_failure :
  failures <> [] ->
  step (progress (ui w')) = Error
  /\ error (progress (ui w')) = Some (join LF failures)
  /\ firestore w' = firestore w
  /\ saveCalls (events w') = saveCalls (events w).
Proof.
  subst w' failures textResult jsonResult. intros Hfail.
  run_handler. rewrite rendered.
  destruct pageImages as [|img rest]; [contradiction|].
  simpl.
  destruct ((extractRawTextFromImages env (img :: rest)).1) as [t|r1],
           ((extractCarDataFromImages env (img :: rest)).1) as [j|r2];
    simpl in *; try contradiction;
    try (destruct (parsedData j); simpl);
    (repeat split; try reflexivity; tidy_events; reflexivity).
Qed.

(** Claim C2. When both extraction branches fail, the run ends in the
    error state, the error message is the text branch's message, a line
    feed and the structured branch's message, the store is unchanged and
    no save was attempted. *)
Theorem both_branches_fail (r1 r2 : Thrown) :
  textResult = Rejected r1 ->
  jsonResult = Rejected r2 ->
  step (progress (ui w')) = Error
  /\ error (progress (ui w'))
     = Some (messageOr MSG_TEXT_UNKNOWN r1 ++ LF ++ messageOr MSG_JSON_UNKNOWN r2)
  /\ firestore w' = firestore w
  /\ saveCalls (events w') = saveCalls (events w).
Proof.
  intros H1 H2.
  assert (Hf : failures = [messageOr MSG_TEXT_UNKNOWN r1; messageOr MSG_JSON_UNKNOWN r2]).
  { subst failures. rewrite H1, H2. reflexivity. }
  destruct run_with_failure as (Hs & He & Hdb & Hsv).
  { rewrite Hf. discriminate. }
  rewrite Hf in He. auto.
Qed.

(** Claim C1, as the code has it. When exactly one extraction branch
    succeeds and the other fails, the run ends in the error state with the
    failed branch's message; no record is created and no save is
    attempted. *)
Theorem one_branch_failure_ends_in_error (msg : jsstring) :
  (exists t r, textResult = Fulfilled t /\ jsonResult = Rejected r
               /\ msg = messageOr MSG_JSON_UNKNOWN r)
  \/ (exists r j, textResult = Rejected r /\ jsonResult = Fulfilled j
                  /\ msg = messageOr MSG_TEXT_UNKNOWN r) ->
  step (progress (ui w')) = Error
  /\ error (progress (ui w')) = Some msg
  /\ firestore w' = firestore w
  /\ saveCalls (events w') = saveCalls (events w).
Proof.
  intros H.
  assert (Hf : failures = [msg]).
  { subst failures.
    destruct H as [(t & r & -> & -> & ->) | (r & j & -> & -> & ->)]; reflexivity. }
  destruct run_with_failure as (Hs & He & Hdb & Hsv).
  { rewrite Hf. discriminate. }
  rewrite Hf in He. auto.
Qed.

(** Claim C5, as the code has it. When the branches have settled and the
    extracted text is empty and the list of records is empty, the run ends
    in the error state and no save is attempted; the message is the one
    for nothing usable when neither branch failed, and the failed
    branches' messages otherwise. *)
Theorem nothing_extracted_ends_in_error :
  valueOr [] textResult = [] ->
  parsedData (valueOr {| parsedData := []; jd_rawJson := [] |} jsonResult) = [] ->
  step (progress (ui w')) = Error
  /\ error (progress (ui w'))
     = Some (match failures with
             | [] => MSG_NOTHING_EXTRACTED
             | _ :: _ => join LF failures
             end)
  /\ firestore w' = firestore w
  /\ saveCalls (events w') = saveCalls (events w).
Proof.
  intros Ht Hj.
  destruct failures as [|m ms] eqn:Hf.
  - subst w' failures textResult jsonResult.
    revert Ht Hj Hf. run_handler. rewrite rendered.
    destruct pageImages as [|img rest]; [contradiction|].
    simpl.
    destruct ((extractRawTextFromImages env (img :: rest)).1) as [t|r1],
             ((extractCarDataFromImages env (img :: rest)).1) as [j|r2];
      simpl; intros Ht Hj Hf; try discriminate.
    destruct j as [pd rj]. simpl in Hj. subst t pd. simpl.
    repeat split; try reflexivity. tidy_events. reflexivity.
  - rewrite <- Hf. apply run_with_failure. subst failures. rewrite Hf. discriminate.
Qed.

(** Claim C6. When the summary is attempted and fails, the failure is
    logged and the run goes on: the assembled record, with an empty
    summary, is handed to the store; when the store accepts it and the
    listing reloads, the run ends in [done] without an error and the stored
    document has the empty summary. The only error the run can still end
    in is the store's. *)
Theorem summary_failure_is_swallowed (t : jsstring) (j : JsonData) (e : Thrown) :
  textResult = Fulfilled t ->
  truthy t = true ->
  jsonResult = Fulfilled j ->
  (generateSummary env t).1 = Rejected e ->
  let record :=
    {| fileName := file; createdAt := new_Date env;
       extractedData := parsedData j; rawJson := jd_rawJson j;
       rawText := t; summary := Some []; images := Some pageImages |} in
  saveCalls (events w') = saveCalls (events w) ++ [record]
  /\ ConsoleError (js "Summary generation failed, but continuing:") e ∈ events w'
  /\ match Firestore.saveCatalog env record (firestore w) with
     | (Fulfilled newCatalog, db') =>
       firestore w' = db'
       /\ Firestore.doc_summary <$> (db' !! id newCatalog) = Some (Some [])
       /\ match Firestore.getAllCatalogs env db' with
          | Fulfilled listed =>
            step (progress (ui w')) = Done
            /\ error (progress (ui w')) = None
            /\ selectedCatalog (ui w') = Some newCatalog
          | Rejected dbError =>
            step (progress (ui w')) = Error
            /\ error (progress (ui w')) = Some (messageOr MSG_SAVE_FAILED dbError)
          end
     | (Rejected dbError, db') =>
       firestore w' = db'
       /\ step (progress (ui w')) = Error
       /\ error (progress (ui w')) = Some (messageOr MSG_SAVE_FAILED dbError)
     end.
Proof.
  subst w' textResult jsonResult. intros Ht Htruthy Hj Hs. cbv zeta.
  destruct pageImages as [|img rest]; [contradiction|].
  destruct j as [pd rj].
  run_handler. rewrite rendered. simpl. rewrite Ht, Hj. simpl.
  destruct pd as [|car cars]; simpl; rewrite Htruthy, Hs; simpl;
    rewrite ?Htruthy; simpl;
    (match goal with
     | |- context [Firestore.saveCatalog env ?r ?db] =>
       destruct (Firestore.saveCatalog env r db) as [[c|dbError] db'] eqn:Hsave
     end; simpl;
     [ apply FirestoreFacts.saveCatalog_stores in Hsave as [Hdb' [urls Hdata]];
       destruct (Firestore.getAllCatalogs env db') as [listed|dbError]; simpl;
       (repeat split; try reflexivity;
        [ tidy_events; reflexivity
        | find_event
        | rewrite Hdb', lookup_insert_eq, Hdata; reflexivity ])
     | repeat split; try reflexivity; [ tidy_events; reflexivity | find_event ] ]).
Qed.

End Runs.

(** ** The progress tracker along a run *)

Opaque fetchWebPageContent newURL.

Ltac run_url_handler :=
  unfold handleUrlSubmit, handleUrlSubmit_try, loadCatalogs, db_saveCatalog,
    db_getAllCatalogs, resetStateForNewFile, gateway, console_error, setTimeout,
    bind, ret, emit.





(** ** Viewing a stored record *)

Section LazySummary.
Import Firestore.
Variable env : Env.
Variables (w : World) (key : jsstring) (doc : CatalogDoc) (s : jsstring).

(** The store holds [doc] under [key], as this program writes documents
    (timestamps made from a [Date]); it has text but no summary. *)
Hypothesis stored : firestore w !! key = Some doc.
Hypothesis millisecond : fromDate (toDate (doc_createdAt doc)) = doc_createdAt doc.
Hypothesis no_summary : doc_summary doc = None.
Hypothesis has_text : doc_rawText doc <> [].
(** The summary is generated and the store accepts the update. *)
Hypothesis generated : (generateSummary env (doc_rawText doc)).1 = Fulfilled s.
Hypothesis writable : updateDoc_fault env key = None.

Let catalog := recordOfDoc (key, doc).
Let w' := (handleSelectCatalog env catalog w).2.

End LazySummary.

Transparent extractRawTextFromImages extractCarDataFromImages generateSummary.
Transparent Firestore.saveCatalog Firestore.getAllCatalogs.
Transparent fetchWebPageContent newURL.

(** ** The scenarios, run *)

(** Every request is answered: the record is stored with its text and its
    summary, and the run goes through every step. *)
Example run_with_every_answer :
  let w' := (handleFileChange (uploadEnv answeringModel) (js "catalog.pdf") initialWorld).2 in
  map step (progressTrace (events w'))
  = [Reading; Converting; ExtractingText; Saving; Done]
  /\ Firestore.doc_rawText <$> (firestore w' !! js "doc1") = Some (js "Page1 Page2 Page3")
  /\ Firestore.doc_summary <$> (firestore w' !! js "doc1") = Some (Some (js "summary"))
  /\ map id (savedCatalogs (ui w')) = [js "doc1"].
Proof. vm_compute. repeat split; reflexivity. Qed.

(** Both branches rate limited: the run ends in error, nothing is stored. *)
Lemma both_branches_fail_witness :
  let w' := (handleFileChange (uploadEnv failingModel) (js "catalog.pdf") initialWorld).2 in
  step (progress (ui w')) = Error
  /\ error (progress (ui w'))
     = Some (messageOr MSG_TEXT_UNKNOWN (rateLimitedError (js "テキスト抽出"))
             ++ LF
             ++ messageOr MSG_JSON_UNKNOWN (rateLimitedError (js "構造化データ抽出")))
  /\ firestore w' = firestore initialWorld
  /\ saveCalls (events w') = saveCalls (events initialWorld).
Proof.
  apply (both_branches_fail (uploadEnv failingModel) (js "catalog.pdf") initialWorld
           threePages).
  - reflexivity.
  - discriminate.
  - vm_compute. reflexivity.
  - vm_compute. reflexivity.
Defined.

(** The text is extracted, the records are rate limited: the run ends in
    error with the structured branch's message. *)
Lemma one_branch_failure_witness :
  let w' := (handleFileChange (uploadEnv textOnlyModel) (js "catalog.pdf") initialWorld).2 in
  step (progress (ui w')) = Error
  /\ error (progress (ui w'))
     = Some (messageOr MSG_JSON_UNKNOWN (rateLimitedError (js "構造化データ抽出")))
  /\ firestore w' = firestore initialWorld
  /\ saveCalls (events w') = saveCalls (events initialWorld).
Proof.
  apply (one_branch_failure_ends_in_error (uploadEnv textOnlyModel) (js "catalog.pdf")
           initialWorld threePages).
  - reflexivity.
  - discriminate.
  - left. exists (js "Page1 Page2 Page3"), (rateLimitedError (js "構造化データ抽出")).
    repeat split; vm_compute; reflexivity.
Defined.

(** The claim as the specification states it fails on its own scenario:
    three pages, the text branch returns [Page1 Page2 Page3], the structured
    branch is rate limited; the run ends in [error], not in [done], and no
    record is created. *)
Lemma one_branch_success_counterexample :
  let env := uploadEnv textOnlyModel in
  let w' := (handleFileChange env (js "catalog.pdf") initialWorld).2 in
  (extractRawTextFromImages env threePages).1 = Fulfilled (js "Page1 Page2 Page3")
  /\ (extractCarDataFromImages env threePages).1
     = Rejected (rateLimitedError (js "構造化データ抽出"))
  /\ step (progress (ui w')) = Error
  /\ step (progress (ui w')) <> Done
  /\ firestore w' = ∅
  /\ saveCalls (events w') = [].
Proof.
  vm_compute. repeat split; try reflexivity. discriminate.
Qed.

(** Both branches answer, with nothing: the run ends in error. *)
Lemma nothing_extracted_witness :
  let w' := (handleFileChange (uploadEnv emptyModel) (js "catalog.pdf") initialWorld).2 in
  step (progress (ui w')) = Error
  /\ error (progress (ui w')) = Some MSG_NOTHING_EXTRACTED
  /\ firestore w' = firestore initialWorld
  /\ saveCalls (events w') = saveCalls (events initialWorld).
Proof.
  pose proof (nothing_extracted_ends_in_error (uploadEnv emptyModel) (js "catalog.pdf")
                initialWorld threePages) as H.
  apply H.
  - reflexivity.
  - discriminate.
  - vm_compute. reflexivity.
  - vm_compute. reflexivity.
Defined.

(** The claim as the specification states it fails: the text branch is
    rate limited and the structured branch finds no record, so the
    extracted text and the list of records are both empty, yet the message
    is the text branch's, not the one for nothing usable. *)
Lemma nothing_extracted_counterexample :
  let env := uploadEnv noTextNoRecordModel in
  let w' := (handleFileChange env (js "catalog.pdf") initialWorld).2 in
  valueOr [] (extractRawTextFromImages env threePages).1 = []
  /\ parsedData (valueOr {| parsedData := []; jd_rawJson := [] |}
                   (extractCarDataFromImages env threePages).1) = []
  /\ error (progress (ui w'))
     = Some (messageOr MSG_TEXT_UNKNOWN (rateLimitedError (js "テキスト抽出")))
  /\ error (progress (ui w')) <> Some MSG_NOTHING_EXTRACTED.
Proof.
  vm_compute. repeat split; try reflexivity. discriminate.
Qed.

(** The summary request never settles: the record is stored with an empty
    summary and the run ends in [done]. *)
Lemma summary_failure_witness :
  let w' := (handleFileChange (uploadEnv noSummaryModel) (js "catalog.pdf") initialWorld).2 in
  step (progress (ui w')) = Done
  /\ error (progress (ui w')) = None
  /\ Firestore.doc_summary <$> (firestore w' !! js "doc1") = Some (Some []).
Proof.
  pose proof (summary_failure_is_swallowed (uploadEnv noSummaryModel) (js "catalog.pdf")
                initialWorld threePages eq_refl ltac:(discriminate)
                (js "Page1 Page2 Page3") {| parsedData := []; jd_rawJson := js "[]" |}
                (newError (js "AIによる要約生成がタイムアウトしました。カタログが大きすぎるか、複雑すぎる可能性があります。"))
                ltac:(vm_compute; reflexivity) eq_refl
                ltac:(vm_compute; reflexivity) ltac:(vm_compute; reflexivity))
    as (_ & _ & H).
  vm_compute in H. destruct H as (_ & Hsummary & Hstep & Herror & _).
  vm_compute. repeat split; assumption.
Defined.



(** * Further properties *)

(** ** Trimming *)

Lemma trimStart_idempotent (s : jsstring) : trimStart (trimStart s) = trimStart s.
Proof.
  induction s as [|c r IH]; [reflexivity|]. simpl.
  destruct (isWhiteSpace c) eqn:Hc; [exact IH|]. simpl. rewrite Hc. reflexivity.
Qed.

Lemma trimStart_app (a b : jsstring) :
  trimStart (a ++ b)
  = match trimStart a with [] => trimStart b | _ :: _ => trimStart a ++ b end.
Proof.
  induction a as [|c r IH]; [reflexivity|]. simpl.
  destruct (isWhiteSpace c); [exact IH | reflexivity].
Qed.

Lemma trimEnd_cons (c : N) (r : jsstring) :
  trimEnd (c :: r)
  = match trimEnd r with
    | [] => if isWhiteSpace c then [] else [c]
    | _ :: _ => c :: trimEnd r
    end.
Proof.
  unfold trimEnd. simpl. rewrite trimStart_app.
  destruct (trimStart (rev r)) as [|x l] eqn:E; simpl.
  - destruct (isWhiteSpace c); reflexivity.
  - rewrite rev_app_distr. simpl.
    destruct (rev l ++ [x]) eqn:E2; [destruct (rev l); discriminate|reflexivity].
Qed.

Lemma trimEnd_idempotent (s : jsstring) : trimEnd (trimEnd s) = trimEnd s.
Proof.
  unfold trimEnd. rewrite rev_involutive, trimStart_idempotent. reflexivity.
Qed.

Lemma trimStart_head (s : jsstring) (c : N) (r : jsstring) :
  trimStart s = c :: r -> isWhiteSpace c = false.
Proof.
  induction s as [|x l IH]; [discriminate|]. simpl.
  destruct (isWhiteSpace x) eqn:Hx; [exact IH|]. intros [= <- _]. exact Hx.
Qed.

Lemma trimStart_trimEnd (s : jsstring) :
  trimStart (trimEnd (trimStart s)) = trimEnd (trimStart s).
Proof.
  destruct (trimStart s) as [|c r] eqn:E; [reflexivity|].
  apply trimStart_head in E. rewrite trimEnd_cons.
  destruct (trimEnd r); rewrite ?E; simpl; rewrite E; reflexivity.
Qed.

(** Trimming a trimmed string changes nothing. *)
Lemma trim_idempotent (s : jsstring) : trim (trim s) = trim s.
Proof.
  unfold trim. rewrite trimStart_trimEnd. apply trimEnd_idempotent.
Qed.

Lemma trimStart_not_blank (s : jsstring) :
  forallb isWhiteSpace s = false -> trimStart s <> [].
Proof.
  induction s as [|c r IH]; [discriminate|]. simpl.
  destruct (isWhiteSpace c); simpl; [exact IH | discriminate].
Qed.

Lemma forallb_rev {A} (f : A -> bool) (l : list A) :
  forallb f (rev l) = forallb f l.
Proof.
  induction l as [|x l IH]; [reflexivity|]. simpl.
  rewrite forallb_app, IH. simpl. rewrite andb_true_r. apply andb_comm.
Qed.

Lemma trimEnd_not_blank (s : jsstring) :
  forallb isWhiteSpace s = false -> trimEnd s <> [].
Proof.
  intros H. unfold trimEnd. intros E.
  apply (f_equal (@rev N)) in E. rewrite rev_involutive in E. simpl in E.
  revert E. apply trimStart_not_blank.
  rewrite forallb_rev. exact H.
Qed.

(** A string with a character that is not white space trims to a
    non-empty string. *)
Lemma trim_not_blank (s : jsstring) :
  forallb isWhiteSpace s = false -> truthy (trim s) = true.
Proof.
  intros E. unfold trim.
  assert (H1 := trimStart_not_blank s E).
  assert (H : forallb isWhiteSpace (trimStart s) = false).
  { destruct (trimStart s) as [|c r] eqn:E2; [contradiction|].
    simpl. rewrite (trimStart_head s c r E2). reflexivity. }
  apply trimEnd_not_blank in H.
  destruct (trimEnd (trimStart s)); [contradiction | reflexivity].
Qed.

Lemma elem_of_map_list {A B} (f : A -> B) (l : list A) (y : B) :
  y ∈ map f l <-> exists x, y = f x /\ x ∈ l.
Proof.
  induction l as [|a l IH]; simpl.
  - split; [intros H; inversion H | intros (x & _ & H); inversion H].
  - rewrite elem_of_cons, IH. split.
    + intros [-> | (x & -> & H)]; [exists a | exists x]; rewrite elem_of_cons; auto.
    + intros (x & -> & H). apply elem_of_cons in H as [-> | H]; eauto.
Qed.

(** ** More on the gateway *)

(** [generateSummary] sends a request exactly when the text is not blank. *)
Lemma generateSummary_requests (env : Env) (text : jsstring) :
  (generateSummary env text).2
  = if forallb isWhiteSpace text then [] else [SummaryRequest text].
Proof.
  unfold generateSummary.
  destruct (forallb isWhiteSpace text) eqn:E.
  - rewrite (trim_blank text E). reflexivity.
  - rewrite (trim_not_blank text E). reflexivity.
Qed.

Lemma handleGeminiError_is_Error (env : Env) (error : Thrown) (context : jsstring) :
  exists msg, handleGeminiError env error context = newError msg.
Proof.
  unfold handleGeminiError. destruct error as [e|]; [|eauto].
  repeat match goal with |- context [if ?b then _ else _] => destruct b end; eauto.
Qed.

(** Whatever goes wrong in a gateway operation (the model's error, a time
    out, an empty answer, an answer that is not JSON), the operation is
    rejected with an [Error] carrying a message; so the orchestrator's
    fallback messages for other thrown values are never shown for a gateway
    failure. *)
Theorem gateway_rejections_are_Errors
    (env : Env) (pageImages : list jsstring) (text : jsstring) (reason : Thrown) :
  (extractRawTextFromImages env pageImages).1 = Rejected reason
  \/ (extractCarDataFromImages env pageImages).1 = Rejected reason
  \/ (generateSummary env text).1 = Rejected reason ->
  exists msg, reason = newError msg.
Proof.
  unfold extractRawTextFromImages, extractCarDataFromImages, generateSummary. simpl.
  intros [H | [H | H]]; revert H;
    repeat match goal with
           | |- context [match ?x with _ => _ end] => destruct x; simpl
           end;
    intros [= <-]; first [ apply handleGeminiError_is_Error | eexists; reflexivity ].
Qed.

Lemma gateway_rejections_witness :
  exists msg, rateLimitedError (js "テキスト抽出") = newError msg.
Proof.
  apply (gateway_rejections_are_Errors (uploadEnv failingModel) threePages (js "Page1")).
  left. vm_compute. reflexivity.
Defined.

Lemma extracted_text_is_trimmed (env : Env) (pageImages : list jsstring) (t : jsstring) :
  (extractRawTextFromImages env pageImages).1 = Fulfilled t -> trim t = t.
Proof.
  unfold extractRawTextFromImages. simpl.
  destruct (withTimeout _ _); [|discriminate]. intros [= <-]. apply trim_idempotent.
Qed.

(** The text [extractRawTextFromImages] returns is trimmed, so the
    orchestrator's test for an empty text and [generateSummary]'s test for a
    blank one agree on it: the summary request is sent exactly when the
    orchestrator asks for a summary, and the fixed answer for a blank text is
    never produced for an extracted text that is not empty. *)
Theorem extracted_text_reaches_the_model
    (env : Env) (pageImages : list jsstring) (t : jsstring) :
  (extractRawTextFromImages env pageImages).1 = Fulfilled t ->
  trim t = t
  /\ (generateSummary env t).2 = if truthy t then [SummaryRequest t] else [].
Proof.
  intros H. pose proof (extracted_text_is_trimmed env pageImages t H) as E.
  split; [exact E|]. rewrite generateSummary_requests.
  destruct (truthy t) eqn:T.
  - destruct (forallb isWhiteSpace t) eqn:B; [|reflexivity].
    rewrite <- E, (trim_blank t B) in T. discriminate.
  - destruct t; [reflexivity | discriminate].
Qed.

Lemma extracted_text_witness :
  trim (js "Page1 Page2 Page3") = js "Page1 Page2 Page3"
  /\ (generateSummary (uploadEnv answeringModel) (js "Page1 Page2 Page3")).2
     = if truthy (js "Page1 Page2 Page3")
       then [SummaryRequest (js "Page1 Page2 Page3")] else [].
Proof.
  apply (extracted_text_reaches_the_model (uploadEnv answeringModel) threePages).
  vm_compute. reflexivity.
Defined.








Lemma withTimeout_late {A} (p : Promise A) (ms : N) :
  late p ms = true -> withTimeout p ms = Rejected (timeoutError ms).
Proof.
  destruct p as [t r|]; simpl; [|reflexivity].
  intros H. apply N.leb_le in H. destruct (t <? ms) eqn:E; [|reflexivity].
  apply N.ltb_lt in E. lia.
Qed.

(** A request the model has not answered when the timer fires (after ten
    minutes for the extractions, after two for the summary) is rejected with
    the time-out message of its operation, on a platform whose
    [toLowerCase] lowers the timer's own message as expected. *)
Theorem unanswered_requests_time_out
    (env : Env) (pageImages : list jsstring) (text : jsstring) :
  toLowerCase env (js "Request timed out after 600000 ms")
    = js "request timed out after 600000 ms" ->
  toLowerCase env (js "Request timed out after 120000 ms")
    = js "request timed out after 120000 ms" ->
  (late (generateContent env (RawTextRequest (map dataPart pageImages))) 600000 = true ->
   (extractRawTextFromImages env pageImages).1
   = Rejected (newError (js "AIによるテキスト抽出がタイムアウトしました。カタログが大きすぎるか、複雑すぎる可能性があります。")))
  /\ (late (generateContent env (CarDataRequest (map dataPart pageImages))) 600000 = true ->
      (extractCarDataFromImages env pageImages).1
      = Rejected (newError (js "AIによる構造化データ抽出がタイムアウトしました。カタログが大きすぎるか、複雑すぎる可能性があります。")))
  /\ (forallb isWhiteSpace text = false ->
      late (generateContent env (SummaryRequest text)) 120000 = true ->
      (generateSummary env text).1
      = Rejected (newError (js "AIによる要約生成がタイムアウトしました。カタログが大きすぎるか、複雑すぎる可能性があります。"))).
Proof.
  intros H6 H1.
  assert (M6 : js "Request timed out after 600000 ms"
               = js "Request timed out after " ++ decimal 600000 ++ js " ms")
    by (vm_compute; reflexivity).
  assert (M1 : js "Request timed out after 120000 ms"
               = js "Request timed out after " ++ decimal 120000 ++ js " ms")
    by (vm_compute; reflexivity).
  rewrite M6 in H6. rewrite M1 in H1.
  assert (E6 : forall ctx, handleGeminiError env (timeoutError 600000) ctx
    = newError (js "AIによる" ++ ctx ++ js "がタイムアウトしました。カタログが大きすぎるか、複雑すぎる可能性があります。")).
  { intros ctx. unfold handleGeminiError, timeoutError, newError. cbn [message].
    rewrite H6. vm_compute. reflexivity. }
  assert (E1 : forall ctx, handleGeminiError env (timeoutError 120000) ctx
    = newError (js "AIによる" ++ ctx ++ js "がタイムアウトしました。カタログが大きすぎるか、複雑すぎる可能性があります。")).
  { intros ctx. unfold handleGeminiError, timeoutError, newError. cbn [message].
    rewrite H1. vm_compute. reflexivity. }
  repeat split.
  - intros L. unfold extractRawTextFromImages. cbn [fst].
    rewrite (withTimeout_late _ _ L), E6. vm_compute. reflexivity.
  - intros L. unfold extractCarDataFromImages. cbn [fst].
    rewrite (withTimeout_late _ _ L), E6. vm_compute. reflexivity.
  - intros B L. unfold generateSummary.
    rewrite (trim_not_blank text B). cbn [negb fst].
    rewrite (withTimeout_late _ _ L), E1. vm_compute. reflexivity.
Qed.

Lemma unanswered_requests_witness :
  (generateSummary (uploadEnv noSummaryModel) (js "Page1")).1
  = Rejected (newError (js "AIによる要約生成がタイムアウトしました。カタログが大きすぎるか、複雑すぎる可能性があります。")).
Proof.
  pose proof (unanswered_requests_time_out (uploadEnv noSummaryModel) threePages (js "Page1")
                ltac:(vm_compute; reflexivity) ltac:(vm_compute; reflexivity))
    as (_ & _ & H).
  apply H; vm_compute; reflexivity.
Defined.

Lemma takeWhileNot_no_stop (s : jsstring) : 0x2C ∉ s -> takeWhileNot 0x2C s = s.
Proof.
  induction s as [|c r IH]; [reflexivity|]. intros H.
  apply not_elem_of_cons in H as [Hc Hr]. simpl.
  destruct (c =? 0x2C) eqn:E; [apply N.eqb_eq in E; congruence|].
  rewrite (IH Hr). reflexivity.
Qed.

(** The image data sent to the model is what follows the comma of a data
    URL ([data:image/jpeg;base64,...]); a string without a comma gives
    [undefined]. *)
Theorem dataPart_of_a_data_URL (header payload : jsstring) :
  0x2C ∉ header -> 0x2C ∉ payload ->
  dataPart (header ++ 0x2C :: payload) = Some payload
  /\ dataPart header = None.
Proof.
  intros Hh Hp. induction header as [|c r IH]; simpl.
  - rewrite (takeWhileNot_no_stop payload Hp). split; reflexivity.
  - apply not_elem_of_cons in Hh as [Hc Hr].
    destruct (c =? 0x2C) eqn:E; [apply N.eqb_eq in E; congruence|].
    apply IH, Hr.
Qed.

Lemma dataPart_witness :
  dataPart (js "data:image/jpeg;base64" ++ 0x2C :: js "AAAA") = Some (js "AAAA")
  /\ dataPart (js "data:image/jpeg;base64") = None.
Proof.
  apply (dataPart_of_a_data_URL (js "data:image/jpeg;base64") (js "AAAA")).
  - apply (bool_decide_unpack _). vm_compute. exact I.
  - apply (bool_decide_unpack _). vm_compute. exact I.
Defined.

(** ** More on the web content fetch *)

(** [fetchWebPageContent] makes at most one request, to the proxy with the
    encoded URL, and whatever goes wrong it is rejected with an [Error]
    carrying a message. *)
Theorem fetchWebPageContent_fetches_once (env : Env) (url : jsstring) :
  ((fetchWebPageContent env url).2 = []
   \/ exists encoded, encodeURIComponent env url = Fulfilled encoded
                      /\ (fetchWebPageContent env url).2
                         = [js "https://api.allorigins.win/get?url=" ++ encoded])
  /\ forall reason, (fetchWebPageContent env url).1 = Rejected reason ->
                    exists msg, reason = newError msg.
Proof.
  split.
  - unfold fetchWebPageContent, fetchWebPageContent_try.
    destruct (newURL env url); [|left; reflexivity].
    destruct (encodeURIComponent env url) as [encoded|]; [|left; reflexivity].
    right. exists encoded. split; reflexivity.
  - intros reason. unfold fetchWebPageContent.
    destruct (fetchWebPageContent_try env url) as [[contents|[e|]] fetched]; simpl;
      [discriminate | | intros [= <-]; eauto].
    destruct (isTypeError e && includes (js "URL") (message e)); intros [= <-]; eauto.
Qed.

(** When the proxy answers with a status that is not a success, the
    rejection's message names the status. *)
Theorem http_error_status_is_reported
    (env : Env) (url hostname encoded : jsstring) (response : Response) :
  parseURL env url = Some hostname ->
  encodeURIComponent env url = Fulfilled encoded ->
  fetch env (js "https://api.allorigins.win/get?url=" ++ encoded) = Fulfilled response ->
  ok response = false ->
  (fetchWebPageContent env url).1
  = Rejected (newError (js "Webページの取得に失敗しました: "
                          ++ js "HTTPエラー: " ++ decimal (status response))).
Proof.
  intros Hu He Hf Hok.
  unfold fetchWebPageContent, fetchWebPageContent_try, newURL.
  rewrite Hu, He, Hf, Hok. reflexivity.
Qed.

Lemma http_error_status_witness :
  let response := {| ok := false; status := 404; json_contents := Fulfilled [] |} in
  (fetchWebPageContent (withResponse quietEnv response) (js "https://example.com/c")).1
  = Rejected (newError (js "Webページの取得に失敗しました: "
                          ++ js "HTTPエラー: " ++ decimal (status response))).
Proof.
  intros response.
  apply (http_error_status_is_reported (withResponse quietEnv response)
           (js "https://example.com/c") (js "example.com") (js "https://example.com/c")
           response).
  - vm_compute. reflexivity.
  - reflexivity.
  - reflexivity.
  - reflexivity.
Defined.

(** ** More on the IndexedDB store *)

Section ObjectStoreFacts.
Import IndexedDb IndexedDbFacts.

Lemma listing_after_add (db : ObjectStore) (catalog : CatalogData) :
  ascending db ->
  merge_sort newerFirst (records (add catalog db).2)
  = {| id := keyGenerator db; data := catalog |} :: merge_sort newerFirst (records db).
Proof.
  intros H.
  pose proof (ascending_apply db (Save catalog) H) as [H' _].
  simpl in *.
  rewrite (sort_ascending _ H'), reverse_snoc, (sort_ascending _ (proj1 H)).
  reflexivity.
Qed.

(** Saving returns the record with the identifier the store generated, and
    the listing that follows is the previous listing with that record in
    front. *)
Theorem indexeddb_save_then_list (db : ObjectStore) (catalog : CatalogData) :
  ascending db ->
  let created := {| id := keyGenerator db; data := catalog |} in
  (saveCatalog None catalog db).1 = Fulfilled created
  /\ getAllCatalogs None (saveCatalog None catalog db).2
     = Fulfilled (created :: merge_sort newerFirst (records db)).
Proof.
  intros H created. split; [reflexivity|].
  unfold getAllCatalogs. f_equal. apply (listing_after_add db catalog H).
Qed.

Lemma keyGenerator_replay (ops : list Op) (db : ObjectStore) :
  keyGenerator (fold_left apply ops db)
  = (keyGenerator db + Z.of_nat (length (List.filter isSave ops)))%Z.
Proof.
  revert db. induction ops as [|[c|k] ops IH]; intros db; simpl.
  - lia.
  - rewrite IH. simpl. lia.
  - rewrite IH. simpl. reflexivity.
Qed.

(** Identifiers count the creations: after any history, the next record
    receives the number of records ever created plus one, so the identifier
    of a deleted record is never given again. *)
Theorem identifiers_count_the_saves (ops : list Op) (catalog : CatalogData) :
  (saveCatalog None catalog (replay ops)).1
  = Fulfilled {| id := (1 + Z.of_nat (length (List.filter isSave ops)))%Z;
                 data := catalog |}.
Proof.
  unfold replay. simpl. rewrite keyGenerator_replay. reflexivity.
Qed.

(** Deleting removes the records with that identifier from the listing and
    leaves the others in their order. *)
Theorem indexeddb_delete_then_list (db : ObjectStore) (key : Z) :
  ascending db ->
  getAllCatalogs None (deleteCatalog None key db).2
  = Fulfilled (filter (fun c => id c <> key) (merge_sort newerFirst (records db))).
Proof.
  intros H.
  pose proof (ascending_apply db (Delete key) H) as [H' _].
  unfold getAllCatalogs. simpl in *.
  rewrite (sort_ascending _ H'), (sort_ascending _ (proj1 H)), filter_reverse.
  reflexivity.
Qed.

End ObjectStoreFacts.

Lemma indexeddb_save_then_list_witness :
  let db := IndexedDb.replay [IndexedDb.Save sampleData] in
  let created := {| id := IndexedDb.keyGenerator db; data := sampleData |} in
  (IndexedDb.saveCatalog None sampleData db).1 = Fulfilled created
  /\ IndexedDb.getAllCatalogs None (IndexedDb.saveCatalog None sampleData db).2
     = Fulfilled (created :: merge_sort IndexedDb.newerFirst (IndexedDb.records db)).
Proof.
  apply (indexeddb_save_then_list (IndexedDb.replay [IndexedDb.Save sampleData]) sampleData).
  apply IndexedDbFacts.ascending_replay, IndexedDbFacts.ascending_initDB.
Defined.

Lemma indexeddb_delete_then_list_witness :
  let db := IndexedDb.replay [IndexedDb.Save sampleData; IndexedDb.Save sampleData] in
  IndexedDb.getAllCatalogs None (IndexedDb.deleteCatalog None 1 db).2
  = Fulfilled (filter (fun c => id c <> 1%Z)
                 (merge_sort IndexedDb.newerFirst (IndexedDb.records db))).
Proof.
  apply (indexeddb_delete_then_list
           (IndexedDb.replay [IndexedDb.Save sampleData; IndexedDb.Save sampleData]) 1).
  apply IndexedDbFacts.ascending_replay, IndexedDbFacts.ascending_initDB.
Defined.

(** ** More on the Firestore store *)

Section CollectionFacts.
Import Firestore FirestoreFacts.

(** A record read back from the document written for it is the record. *)
Lemma recordOfDoc_docOfData (c : CatalogRecord jsstring) :
  recordOfDoc (id c, docOfData (data c)) = c.
Proof.
  destruct c as [k [fn ca ed rj rt sm im]]. unfold recordOfDoc, docOfData. simpl.
  rewrite toDate_fromDate. reflexivity.
Qed.

(** A record that was saved is in the listing that follows, as it was
    returned (with the uploaded images' URLs in place of the images), and the
    listing has one record per document. *)
Theorem firestore_save_then_list (env : Env) (catalog : CatalogData)
    (db db' : gmap jsstring CatalogDoc) (c : CatalogRecord jsstring) :
  saveCatalog env catalog db = (Fulfilled c, db') ->
  getDocs_fault env = None ->
  exists listed urls,
    getAllCatalogs env db' = Fulfilled listed
    /\ c ∈ listed
    /\ data c = with_images catalog urls
    /\ length listed = size db'.
Proof.
  intros Hsave Hget.
  apply saveCatalog_stores in Hsave as [-> [urls Hdata]].
  unfold getAllCatalogs. rewrite Hget.
  eexists _, urls. split; [reflexivity|]. split; [|split; [exact Hdata|]].
  - apply elem_of_map_list. exists (id c, docOfData (data c)).
    split; [symmetry; apply recordOfDoc_docOfData|].
    rewrite merge_sort_Permutation.
    apply elem_of_map_to_list, lookup_insert_eq.
  - rewrite length_map, merge_sort_Permutation. apply length_map_to_list.
Qed.

(** After a delete the listing holds the records it held before, without
    the ones under the deleted identifier. *)
Theorem firestore_delete_then_list (env : Env) (key : jsstring)
    (db : gmap jsstring CatalogDoc) (listed : list (CatalogRecord jsstring)) :
  deleteDoc_fault env key = None ->
  getAllCatalogs env db = Fulfilled listed ->
  exists listed',
    getAllCatalogs env (deleteCatalog env key db).2 = Fulfilled listed'
    /\ forall c, c ∈ listed' <-> c ∈ listed /\ id c <> key.
Proof.
  unfold getAllCatalogs, deleteCatalog. intros Hdel.
  destruct (getDocs_fault env); [discriminate|]. intros [= <-]. rewrite Hdel. simpl.
  eexists. split; [reflexivity|]. intros c.
  rewrite !elem_of_map_list.
  split.
  - intros ([k d] & -> & H). rewrite merge_sort_Permutation in H.
    apply elem_of_map_to_list in H.
    apply lookup_delete_Some in H as [Hne H]. split.
    + exists (k, d). split; [reflexivity|].
      rewrite merge_sort_Permutation. apply elem_of_map_to_list. exact H.
    + simpl. congruence.
  - intros [([k d] & -> & H) Hne]. exists (k, d). split; [reflexivity|].
    rewrite merge_sort_Permutation in *. apply elem_of_map_to_list in H.
    apply elem_of_map_to_list, lookup_delete_Some. split; [simpl in Hne; congruence | exact H].
Qed.

Lemma updateCatalog_rejected (env : Env) (catalog : CatalogRecord jsstring)
    (db : gmap jsstring CatalogDoc) (e : Thrown) :
  (updateCatalog env catalog db).1 = Rejected e ->
  (updateCatalog env catalog db).2 = db.
Proof.
  unfold updateCatalog.
  destruct (db !! id catalog); [|reflexivity].
  destruct (updateDoc_fault env (id catalog)); [reflexivity | discriminate].
Qed.

End CollectionFacts.

Lemma firestore_save_then_list_witness :
  let c := {| id := js "doc1"; data := with_images sampleData [] |} in
  let db' : gmap jsstring Firestore.CatalogDoc :=
    {[ js "doc1" := Firestore.docOfData (with_images sampleData []) ]} in
  exists listed urls,
    Firestore.getAllCatalogs quietEnv db' = Fulfilled listed
    /\ c ∈ listed
    /\ data c = with_images sampleData urls
    /\ length listed = size db'.
Proof.
  intros c db'.
  apply (firestore_save_then_list quietEnv sampleData ∅ db' c).
  - vm_compute. reflexivity.
  - reflexivity.
Defined.

Lemma firestore_delete_then_list_witness :
  exists listed',
    Firestore.getAllCatalogs quietEnv
      (Firestore.deleteCatalog quietEnv (js "doc1") (firestore worldWithDoc)).2
    = Fulfilled listed'
    /\ forall c, c ∈ listed'
                 <-> c ∈ [Firestore.recordOfDoc (js "doc1", sampleDoc)] /\ id c <> js "doc1".
Proof.
  apply (firestore_delete_then_list quietEnv (js "doc1") (firestore worldWithDoc)).
  - reflexivity.
  - vm_compute. reflexivity.
Defined.

(** ** More on the orchestrator *)

Opaque extractRawTextFromImages extractCarDataFromImages generateSummary.
Opaque Firestore.saveCatalog Firestore.getAllCatalogs Firestore.updateCatalog.
Opaque fetchWebPageContent newURL.


(** A PDF without pages ends the run in the error state before anything is
    asked of the model or of the store. *)
Theorem no_pages_nothing_is_asked (env : Env) (file : jsstring) (w : World) :
  readFile env file = PagesRendered [] ->
  let w' := (handleFileChange env file w).2 in
  progress (ui w') = failedAfresh MSG_NO_IMAGES
  /\ aiCalls (events w') = aiCalls (events w)
  /\ saveCalls (events w') = saveCalls (events w)
  /\ firestore w' = firestore w.
Proof.
  intros H w'. subst w'. run_handler. rewrite H. simpl.
  repeat split; try reflexivity; tidy_events; reflexivity.
Qed.

(** As [split_outcomes], keeping what the store did. *)
Ltac split_outcomes_eq :=
  repeat
    (simpl;
     match goal with
     | |- context [readFile ?e ?f] => destruct (readFile e f) as [?| | | |[|? ?]]
     | |- context [(extractRawTextFromImages ?e ?i).1] =>
       destruct ((extractRawTextFromImages e i).1)
     | |- context [(extractCarDataFromImages ?e ?i).1] =>
       destruct ((extractCarDataFromImages e i).1) as [[[|? ?] ?]|?]
     | |- context [(fetchWebPageContent ?e ?u).1] =>
       destruct ((fetchWebPageContent e u).1)
     | |- context [extractCarDataFromWebPage ?e ?h ?u] =>
       destruct (extractCarDataFromWebPage e h u) as [[[|? ?] ? ?]|?]
     | |- context [newURL ?e ?u] => destruct (newURL e u)
     | |- context [truthy ?t] => destruct (truthy t)
     | |- context [(generateSummary ?e ?t).1] => destruct ((generateSummary e t).1)
     | |- context [Firestore.saveCatalog ?e ?r ?d] =>
       let H := fresh "Hsave" in
       destruct (Firestore.saveCatalog e r d) as [[?|?] ?] eqn:H;
       [apply FirestoreFacts.saveCatalog_stores in H as [? [? ?]]|]
     | |- context [Firestore.getAllCatalogs ?e ?d] =>
       let H := fresh "Hlist" in
       destruct (Firestore.getAllCatalogs e d) eqn:H
     end).

(** Finds an event in a list built by conses and appends. *)
Ltac locate_event :=
  repeat first
    [ apply list_elem_of_here
    | apply list_elem_of_further
    | apply elem_of_app; right ].

Ltac done_case :=
  simpl; split; [tidy_events; simpl; lia|];
  first
    [ intros ?; discriminate
    | intros _; eexists; split; [reflexivity|];
      split; [subst; apply lookup_insert_eq|];
      split; [first [reflexivity | assumption]|]; locate_event ].

(** A run, of an upload or of a URL, hands at most one record to the
    store; and it ends in [done] only with that record stored, selected and
    in the reloaded list, and with the return to [idle] scheduled. *)
Theorem done_means_stored
    (env : Env) (file url : jsstring) (state : AppState)
    (db : gmap jsstring Firestore.CatalogDoc) :
  let w := {| ui := state; firestore := db; events := [] |} in
  let ends (w' : World) :=
    (length (saveCalls (events w')) <= 1)%nat
    /\ (step (progress (ui w')) = Done ->
        exists c, selectedCatalog (ui w') = Some c
                  /\ firestore w' !! id c = Some (Firestore.docOfData (data c))
                  /\ Firestore.getAllCatalogs env (firestore w')
                     = Fulfilled (savedCatalogs (ui w'))
                  /\ SetTimeout (atStep Idle) 5000 ∈ events w') in
  ends (handleFileChange env file w).2 /\ ends (handleUrlSubmit env url w).2.
Proof.
  intros w ends. subst w ends. cbv beta. split.
  - run_handler. split_outcomes_eq. all: done_case.
  - run_url_handler. split_outcomes_eq. all: done_case.
Qed.

Section MoreRuns.
Variable env : Env.
Variables (file : jsstring) (w : World) (pageImages : list jsstring).

Hypothesis rendered : readFile env file = PagesRendered pageImages.
Hypothesis nonempty : pageImages <> [].

Let textResult := (extractRawTextFromImages env pageImages).1.
Let jsonResult := (extractCarDataFromImages env pageImages).1.
Let w' := (handleFileChange env file w).2.


(** The record can be in the store while the run reports a failure: when
    the save succeeded but the list could not be reloaded, the run ends in
    the error state with the reload's message, the record is not selected
    and the list is the old one, yet the document is in the collection. *)
Theorem stored_but_reported_as_failed
    (t : jsstring) (j : JsonData) (c : CatalogRecord jsstring)
    (db' : gmap jsstring Firestore.CatalogDoc) (e : Thrown) :
  textResult = Fulfilled t ->
  jsonResult = Fulfilled j ->
  truthy t = true \/ parsedData j <> [] ->
  Firestore.saveCatalog env (pdfRecord env file pageImages t j) (firestore w)
    = (Fulfilled c, db') ->
  Firestore.getAllCatalogs env db' = Rejected e ->
  firestore w' = db'
  /\ db' !! id c = Some (Firestore.docOfData (data c))
  /\ step (progress (ui w')) = Error
  /\ error (progress (ui w')) = Some (messageOr MSG_SAVE_FAILED e)
  /\ selectedCatalog (ui w') = None
  /\ savedCatalogs (ui w') = savedCatalogs (ui w).
Proof.
  subst w' textResult jsonResult. intros Ht Hj Hcontent Hsave Hlist.
  destruct pageImages as [|img rest]; [contradiction|].
  destruct j as [pd rj]. unfold pdfRecord, summaryFor in *. simpl in *.
  run_handler. rewrite rendered. simpl. rewrite Ht, Hj. simpl.
  pose proof (FirestoreFacts.saveCatalog_stores _ _ _ _ _ Hsave) as [Hdb' _].
  assert (Hstored : db' !! id c = Some (Firestore.docOfData (data c))).
  { rewrite Hdb'. apply lookup_insert_eq. }
  destruct pd as [|car cars]; simpl;
    (destruct (truthy t) eqn:Htruthy; simpl in *;
     [|try (destruct Hcontent as [Hc | Hc]; [discriminate | contradiction])]).
  all: try (destruct ((generateSummary env t).1) as [s|e']; simpl in * ).
  all: rewrite ?Htruthy; simpl.
  all: rewrite Hsave; simpl; rewrite Hlist; simpl.
  all: repeat split; try reflexivity; exact Hstored.
Qed.

(** The chat over the extracted records is created before the failures of
    the branches are looked at: when the text branch fails and the
    structured branch succeeds, the run ends in the error state with nothing
    saved and nothing selected, and the chat over the records is there. *)
Theorem chat_is_created_before_the_run_fails (j : JsonData) (r : Thrown) :
  textResult = Rejected r ->
  jsonResult = Fulfilled j ->
  chat (ui w') = chatFor (parsedData j)
  /\ step (progress (ui w')) = Error
  /\ selectedCatalog (ui w') = None
  /\ saveCalls (events w') = saveCalls (events w).
Proof.
  subst w' textResult jsonResult. intros Ht Hj.
  destruct pageImages as [|img rest]; [contradiction|].
  destruct j as [pd rj].
  run_handler. rewrite rendered. simpl. rewrite Ht, Hj. simpl.
  destruct pd as [|car cars]; simpl;
    (repeat split; try reflexivity; tidy_events; reflexivity).
Qed.

End MoreRuns.

Section UrlRuns.
Variable env : Env.
Variables (url : jsstring) (w : World).
Let w' := (handleUrlSubmit env url w).2.


End UrlRuns.

Section Selecting.
Variable env : Env.
Variables (catalog : CatalogRecord jsstring) (w : World).
Let w' := (handleSelectCatalog env catalog w).2.

(** Selecting a record that has a summary, or no text to summarise, asks
    nothing of the model and writes nothing: the record is shown as it is,
    with the filters cleared and the tracker idle. *)
Theorem selecting_a_summarised_record_asks_nothing :
  lacksSummary catalog = false \/ rawText (data catalog) = [] ->
  events w' = events w ++ [SetProgress (atStep Idle)]
  /\ firestore w' = firestore w
  /\ selectedCatalog (ui w') = Some catalog
  /\ chat (ui w') = chatFor (extractedData (data catalog))
  /\ filters (ui w') = noFilters
  /\ pdfFile (ui w') = None
  /\ savedCatalogs (ui w') = savedCatalogs (ui w)
  /\ isGeneratingSummary (ui w') = isGeneratingSummary (ui w).
Proof.
  subst w'. intros H.
  assert (G : lacksSummary catalog && truthy (rawText (data catalog)) = false).
  { destruct H as [-> | ->]; [reflexivity | apply andb_false_r]. }
  unfold handleSelectCatalog, bind, ret. simpl.
  destruct (extractedData (data catalog)); simpl; rewrite G; simpl;
    repeat split; reflexivity.
Qed.

(** A summary that cannot be generated, or cannot be written to the store,
    is given up silently: the failure goes to the console, the record is
    shown as it was, the store and the list are unchanged, and the flag for a
    summary in the making is cleared. *)
Theorem failed_lazy_summary_is_swallowed (e : Thrown) :
  lacksSummary catalog = true ->
  truthy (rawText (data catalog)) = true ->
  (generateSummary env (rawText (data catalog))).1 = Rejected e
  \/ (exists s, (generateSummary env (rawText (data catalog))).1 = Fulfilled s
                /\ (Firestore.updateCatalog env
                      {| id := id catalog; data := with_summary (data catalog) s |}
                      (firestore w)).1 = Rejected e) ->
  firestore w' = firestore w
  /\ selectedCatalog (ui w') = Some catalog
  /\ savedCatalogs (ui w') = savedCatalogs (ui w)
  /\ isGeneratingSummary (ui w') = false
  /\ progress (ui w') = atStep Idle
  /\ ConsoleError (js "Failed to generate summary on demand:") e ∈ events w'.
Proof.
  subst w'. intros Hlacks Htext H.
  unfold handleSelectCatalog, db_updateCatalog, gateway, console_error, bind, ret, emit.
  simpl.
  destruct H as [Hgen | (s & Hgen & Hupd)].
  - destruct (extractedData (data catalog)); simpl; rewrite Hlacks, Htext; simpl;
      rewrite Hgen; simpl; (repeat split; try reflexivity; find_event).
  - pose proof (updateCatalog_rejected _ _ _ _ Hupd) as Hdb.
    destruct (extractedData (data catalog)); simpl; rewrite Hlacks, Htext; simpl;
      rewrite Hgen; simpl;
      (destruct (Firestore.updateCatalog env _ (firestore w)) as [r db'];
       simpl in *; subst r db'; simpl;
       (repeat split; try reflexivity; find_event)).
Qed.

End Selecting.

(** ** The progress display along a run *)



Transparent extractRawTextFromImages extractCarDataFromImages generateSummary.
Transparent Firestore.saveCatalog Firestore.getAllCatalogs Firestore.updateCatalog.
Transparent fetchWebPageContent newURL.

(** A URL run has no [converting] step: once the page is fetched the
    tracker shows it as pending between a completed step and the ones in
    progress. *)
Example url_run_skips_a_step :
  let p := advance ExtractingJson {[Reading]} (atStep Reading) in
  p ∈ progressTrace
        (events (handleUrlSubmit (uploadEnv answeringModel) (js "https://example.com/c")
                   initialWorld).2)
  /\ map (getStepStatus p) steps = [completed; pending; in_progress; in_progress; pending]
  /\ ~ readsInOrder p.
Proof.
  split; [|split].
  - vm_compute. apply list_elem_of_further, list_elem_of_here.
  - vm_compute. reflexivity.
  - unfold readsInOrder.
    assert (E : map (getStepStatus (advance ExtractingJson {[Reading]} (atStep Reading))) steps
                = [completed; pending; in_progress; in_progress; pending])
      by (vm_compute; reflexivity).
    cbv zeta. rewrite E. intros H.
    apply Sorted_inv in H as [H _]. apply Sorted_inv in H as [_ H].
    apply HdRel_inv in H. exact H.
Qed.

Section Deleting.
Variable env : Env.
Variables (key : jsstring) (w : World).
Let w' := (handleDeleteCatalog env key w).2.

(** Deleting a record removes it from the store and from the list; when it
    was the selected record the view is cleared (no selection, no chat, the
    tracker idle), and otherwise the view is left as it was. *)
Theorem deleting_clears_the_selection :
  deleteDoc_fault env key = None ->
  getDocs_fault env = None ->
  (handleDeleteCatalog env key w).1 = Fulfilled tt
  /\ firestore w' = delete key (firestore w)
  /\ firestore w' !! key = None
  /\ Firestore.getAllCatalogs env (firestore w') = Fulfilled (savedCatalogs (ui w'))
  /\ Forall (fun c => id c <> key) (savedCatalogs (ui w'))
  /\ match selectedCatalog (ui w) with
     | Some c =>
       if decide (id c = key)
       then selectedCatalog (ui w') = None /\ chat (ui w') = None
            /\ progress (ui w') = atStep Idle
       else selectedCatalog (ui w') = Some c /\ chat (ui w') = chat (ui w)
            /\ progress (ui w') = progress (ui w)
     | None => selectedCatalog (ui w') = None /\ chat (ui w') = chat (ui w)
               /\ progress (ui w') = progress (ui w)
     end.
Proof.
  subst w'. intros Hdel Hget.
  assert (Hlisted : Forall (fun c : CatalogRecord jsstring => id c <> key)
            (map Firestore.recordOfDoc
               (merge_sort Firestore.laterFirst (map_to_list (delete key (firestore w)))))).
  { apply Forall_forall. intros c Hc.
    apply elem_of_map_list in Hc as ([k d] & -> & Hin).
    rewrite merge_sort_Permutation in Hin.
    apply elem_of_map_to_list, lookup_delete_Some in Hin as [Hne _].
    simpl. congruence. }
  unfold handleDeleteCatalog, db_deleteCatalog, loadCatalogs, db_getAllCatalogs,
    Firestore.deleteCatalog, bind, ret.
  rewrite Hdel. simpl.
  assert (Hall : forall db, Firestore.getAllCatalogs env db
            = Fulfilled (map Firestore.recordOfDoc
                (merge_sort Firestore.laterFirst (map_to_list db)))).
  { intros db. unfold Firestore.getAllCatalogs. rewrite Hget. reflexivity. }
  rewrite !Hall. simpl.
  destruct (selectedCatalog (ui w)) as [c|] eqn:Hsel; simpl.
  - destruct (decide (id c = key)); simpl; rewrite ?Hall;
      repeat split; try reflexivity; try exact Hlisted; try exact Hsel;
      apply lookup_delete_eq.
  - rewrite ?Hall; repeat split; try reflexivity; try exact Hlisted; try exact Hsel;
      apply lookup_delete_eq.
Qed.

End Deleting.

(** ** The orchestrator's scenarios, run *)

Lemma no_pages_witness :
  let w' := (handleFileChange emptyPdfEnv (js "catalog.pdf") initialWorld).2 in
  progress (ui w') = failedAfresh MSG_NO_IMAGES
  /\ aiCalls (events w') = aiCalls (events initialWorld)
  /\ saveCalls (events w') = saveCalls (events initialWorld)
  /\ firestore w' = firestore initialWorld.
Proof.
  apply (no_pages_nothing_is_asked emptyPdfEnv (js "catalog.pdf") initialWorld).
  reflexivity.
Defined.


(** The same upload when the collection cannot be listed: the document is
    stored and the run ends in the error state. *)
Lemma stored_but_failed_witness :
  let env := withGetDocsFault (catalogEnv answeringModel) unavailable in
  let w' := (handleFileChange env (js "catalog.pdf") initialWorld).2 in
  step (progress (ui w')) = Error
  /\ error (progress (ui w')) = Some (js "unavailable")
  /\ selectedCatalog (ui w') = None
  /\ savedCatalogs (ui w') = [].
Proof.
  pose proof (stored_but_reported_as_failed
                (withGetDocsFault (catalogEnv answeringModel) unavailable)
                (js "catalog.pdf") initialWorld threePages eq_refl ltac:(discriminate)
                (js "Page1 Page2 Page3")
                {| parsedData := assignIds (catalogEnv answeringModel) 0 twoCars;
                   jd_rawJson := js "[]" |}
                _ _ unavailable
                ltac:(vm_compute; reflexivity) ltac:(vm_compute; reflexivity)
                ltac:(left; reflexivity)
                ltac:(vm_compute; reflexivity) ltac:(vm_compute; reflexivity))
    as (_ & _ & Hstep & Herror & Hsel & Hlist).
  intros env w'. subst env w'.
  split; [exact Hstep|]. split; [exact Herror|]. split; [exact Hsel | exact Hlist].
Defined.

(** The text branch is rate limited, the structured branch finds two
    records: the run fails and the chat is there. *)
Lemma chat_before_failure_witness :
  let env := catalogEnv recordsOnlyModel in
  let w' := (handleFileChange env (js "catalog.pdf") initialWorld).2 in
  chat (ui w') = chatFor (assignIds env 0 twoCars)
  /\ step (progress (ui w')) = Error
  /\ selectedCatalog (ui w') = None
  /\ saveCalls (events w') = saveCalls (events initialWorld).
Proof.
  apply (chat_is_created_before_the_run_fails (catalogEnv recordsOnlyModel)
           (js "catalog.pdf") initialWorld threePages eq_refl ltac:(discriminate)
           {| parsedData := assignIds (catalogEnv recordsOnlyModel) 0 twoCars;
              jd_rawJson := js "[{},{}]" |}
           (rateLimitedError (js "テキスト抽出"))).
  - vm_compute. reflexivity.
  - vm_compute. reflexivity.
Defined.


Lemma selecting_witness :
  let w' := (handleSelectCatalog quietEnv sampleRecord initialWorld).2 in
  events w' = events initialWorld ++ [SetProgress (atStep Idle)]
  /\ firestore w' = firestore initialWorld
  /\ selectedCatalog (ui w') = Some sampleRecord
  /\ chat (ui w') = chatFor (extractedData (data sampleRecord))
  /\ filters (ui w') = noFilters
  /\ pdfFile (ui w') = None
  /\ savedCatalogs (ui w') = savedCatalogs (ui initialWorld)
  /\ isGeneratingSummary (ui w') = isGeneratingSummary (ui initialWorld).
Proof.
  apply (selecting_a_summarised_record_asks_nothing quietEnv sampleRecord initialWorld).
  left. reflexivity.
Defined.

(** The model is rate limited when a record without a summary is selected. *)
Lemma failed_lazy_summary_witness :
  let catalog := Firestore.recordOfDoc (js "doc1", sampleDoc) in
  let w' := (handleSelectCatalog quietEnv catalog worldWithDoc).2 in
  firestore w' = firestore worldWithDoc
  /\ selectedCatalog (ui w') = Some catalog
  /\ savedCatalogs (ui w') = savedCatalogs (ui worldWithDoc)
  /\ isGeneratingSummary (ui w') = false
  /\ progress (ui w') = atStep Idle
  /\ ConsoleError (js "Failed to generate summary on demand:")
       (rateLimitedError (js "要約生成")) ∈ events w'.
Proof.
  apply (failed_lazy_summary_is_swallowed quietEnv
           (Firestore.recordOfDoc (js "doc1", sampleDoc)) worldWithDoc
           (rateLimitedError (js "要約生成"))).
  - reflexivity.
  - reflexivity.
  - left. vm_compute. reflexivity.
Defined.

Lemma deleting_witness :
  let w' := (handleDeleteCatalog quietEnv (js "doc1") worldWithSelection).2 in
  firestore w' !! js "doc1" = None
  /\ selectedCatalog (ui w') = None
  /\ chat (ui w') = None.
Proof.
  pose proof (deleting_clears_the_selection quietEnv (js "doc1") worldWithSelection
                eq_refl eq_refl)
    as (_ & _ & Hgone & _ & _ & Hview).
  vm_compute in Hview. destruct Hview as (Hsel & Hchat & _).
  intros w'. split; [exact Hgone|]. split; [exact Hsel | exact Hchat].
Defined.

(** ** The view *)

(** The URL form hands over a trimmed, non-empty string or nothing at all:
    a blank input is not submitted, and what is submitted would be
    submitted unchanged if it were entered again. *)
Theorem url_form_submits_trimmed_urls (url : jsstring) :
  UrlInput_handleSubmit url
  = (if forallb isWhiteSpace url then None else Some (trim url))
  /\ forall u, UrlInput_handleSubmit url = Some u ->
               u <> [] /\ trim u = u /\ UrlInput_handleSubmit u = Some u.
Proof.
  unfold UrlInput_handleSubmit.
  assert (E : truthy (trim url) = negb (forallb isWhiteSpace url)).
  { destruct (forallb isWhiteSpace url) eqn:B.
    - rewrite (trim_blank url B). reflexivity.
    - apply trim_not_blank, B. }
  split.
  - rewrite E. destruct (forallb isWhiteSpace url); reflexivity.
  - intros u. destruct (truthy (trim url)) eqn:T; [|discriminate].
    intros [= <-]. rewrite trim_idempotent, T.
    repeat split. destruct (trim url); [discriminate | discriminate].
Qed.

(** An edit of a cell changes the rows with that identifier in the
    selected record, in the field edited, and nothing else: not the other
    rows, not the record's other fields, not the list of saved records, and
    not the store, to which nothing is written. *)
Theorem cell_edits_stay_in_the_view (rowId : jsstring) (edit : CellEdit) (w : World) :
  let w' := (handleCellChange rowId edit w).2 in
  firestore w' = firestore w
  /\ events w' = events w
  /\ savedCatalogs (ui w') = savedCatalogs (ui w)
  /\ progress (ui w') = progress (ui w)
  /\ match selectedCatalog (ui w) with
     | None => selectedCatalog (ui w') = None
     | Some c =>
       exists c', selectedCatalog (ui w') = Some c'
         /\ id c' = id c
         /\ with_extractedData (data c') [] = with_extractedData (data c) []
         /\ length (extractedData (data c')) = length (extractedData (data c))
         /\ forall (i : nat) row, extractedData (data c) !! i = Some row ->
              extractedData (data c') !! i
              = Some (if decide (car_id row = rowId) then applyEdit row edit else row)
     end.
Proof.
  intros w'. subst w'. unfold handleCellChange.
  destruct (selectedCatalog (ui w)) as [c|] eqn:Hsel; simpl.
  - repeat split; try reflexivity.
    eexists. split; [reflexivity|]. simpl. repeat split.
    + apply length_map.
    + intros i row Hrow.
      change (map ?f ?l) with (f <$> l). rewrite list_lookup_fmap, Hrow. reflexivity.
  - repeat split; try reflexivity. exact Hsel.
Qed.

Section ViewFacts.
Variable env : Env.

Lemma matchesFilter_true (filter : jsstring) (value : option jsstring) :
  matchesFilter filter value = true -> filter <> [] -> value = Some filter.
Proof.
  unfold matchesFilter. destruct filter; [contradiction|]. simpl.
  intros H _. apply bool_decide_eq_true in H. exact H.
Qed.

(** Every row the table shows is a row of the selected record and matches
    each filter that is set: the manufacturer, the model name and the issue
    date exactly, and the option by one of the row's options containing the
    search text, case lowered; a row without options is never shown while an
    option is searched for. *)
Theorem filtered_rows_match_the_filters
    (c : CatalogRecord jsstring) (f : Filters) (row : CarSpecification) :
  row ∈ filteredData env (Some c) f ->
  row ∈ extractedData (data c)
  /\ (flt_manufacturer f <> [] -> manufacturer row = Some (flt_manufacturer f))
  /\ (flt_modelName f <> [] -> modelName row = Some (flt_modelName f))
  /\ (flt_issueDate f <> [] -> issueDate row = Some (flt_issueDate f))
  /\ (toLowerCase env (flt_option f) <> [] ->
      exists opts opt,
        options row = Some opts /\ opt ∈ opts
        /\ includes (toLowerCase env (flt_option f)) (toLowerCase env opt) = true).
Proof.
  unfold filteredData. intros H.
  apply list_elem_of_In, filter_In in H as [Hin Hp].
  apply list_elem_of_In in Hin.
  unfold passesFilters in Hp.
  apply andb_prop in Hp as [Hp Ho]. apply andb_prop in Hp as [Hp Hd].
  apply andb_prop in Hp as [Hm Hn].
  split; [exact Hin|].
  split; [apply matchesFilter_true, Hm|].
  split; [apply matchesFilter_true, Hn|].
  split; [apply matchesFilter_true, Hd|].
  intros Hopt. destruct (toLowerCase env (flt_option f)) as [|x l]; [contradiction|].
  simpl in Ho. unfold hasOption in Ho.
  destruct (options row) as [opts|]; [|discriminate].
  apply existsb_exists in Ho as (opt & Hin' & Hinc).
  exists opts, opt. split; [reflexivity|]. split; [apply list_elem_of_In, Hin' | exact Hinc].
Qed.

End ViewFacts.

Lemma filtered_rows_witness :
  let row := sampleCar (js "Toyota") (js "Corolla") (Some [js "Sunroof"; js "Navigation"]) in
  let row' := with_car_id row (js "1700000000000-0") in
  let f := {| flt_manufacturer := js "Toyota"; flt_modelName := [];
              flt_issueDate := []; flt_option := js "ROOF" |} in
  row' ∈ extractedData (data sampleRecord)
  /\ (flt_manufacturer f <> [] -> manufacturer row' = Some (flt_manufacturer f))
  /\ (flt_modelName f <> [] -> modelName row' = Some (flt_modelName f))
  /\ (flt_issueDate f <> [] -> issueDate row' = Some (flt_issueDate f))
  /\ (toLowerCase quietEnv (flt_option f) <> [] ->
      exists opts opt,
        options row' = Some opts /\ opt ∈ opts
        /\ includes (toLowerCase quietEnv (flt_option f)) (toLowerCase quietEnv opt) = true).
Proof.
  intros row row' f.
  apply (filtered_rows_match_the_filters quietEnv sampleRecord f row').
  vm_compute. apply list_elem_of_here.
Defined.

(** ** The filter controls *)

Lemma distinctValues_spec (seen : list jsstring) (values : list (option jsstring))
    (x : jsstring) :
  x ∈ distinctValues seen values -> x <> [] /\ Some x ∈ values /\ x ∉ seen.
Proof.
  revert seen. induction values as [|v rest IH]; intros seen; simpl.
  - intros H. inversion H.
  - destruct v as [[|c r]|].
    + intros H. apply IH in H as (H1 & H2 & H3). rewrite elem_of_cons. auto.
    + destruct (bool_decide (c :: r ∈ seen)) eqn:B.
      * intros H. apply IH in H as (H1 & H2 & H3). rewrite elem_of_cons. auto.
      * apply bool_decide_eq_false in B. rewrite elem_of_cons. intros [-> | H].
        -- split; [discriminate|]. split; [apply list_elem_of_here | exact B].
        -- apply IH in H as (H1 & H2 & H3). rewrite elem_of_cons in H3.
           split; [exact H1|]. split; [apply list_elem_of_further, H2 | tauto].
    + intros H. apply IH in H as (H1 & H2 & H3). rewrite elem_of_cons. auto.
Qed.

Lemma distinctValues_NoDup (seen : list jsstring) (values : list (option jsstring)) :
  NoDup (distinctValues seen values).
Proof.
  revert seen. induction values as [|v rest IH]; intros seen; simpl.
  - constructor.
  - destruct v as [[|c r]|]; try apply IH.
    destruct (bool_decide (c :: r ∈ seen)); [apply IH|].
    constructor; [|apply IH].
    intros H. apply distinctValues_spec in H as (_ & _ & H).
    apply H, list_elem_of_here.
Qed.

(** The model names the filter offers for the chosen manufacturer are
    offered once each, none of them is empty, and each of them, chosen,
    leaves at least one row in the table (on a platform whose [toLowerCase]
    keeps the empty string). *)
Theorem offered_model_names_select_rows
    (env : Env) (c : CatalogRecord jsstring) (chosen x : jsstring) :
  toLowerCase env [] = [] ->
  x ∈ modelNameOptions (extractedData (data c)) chosen ->
  NoDup (modelNameOptions (extractedData (data c)) chosen)
  /\ x <> []
  /\ exists row,
       row ∈ filteredData env (Some c)
               {| flt_manufacturer := chosen; flt_modelName := x;
                  flt_issueDate := []; flt_option := [] |}.
Proof.
  intros Hlower Hx. split; [apply distinctValues_NoDup|].
  unfold modelNameOptions in Hx.
  apply distinctValues_spec in Hx as (Hne & Hin & _).
  split; [exact Hne|].
  apply elem_of_map_list in Hin as (row & Hname & Hrow).
  exists row. unfold filteredData.
  apply list_elem_of_In, filter_In. split.
  - destruct (truthy chosen).
    + apply list_elem_of_In, filter_In in Hrow as [Hrow _]. exact Hrow.
    + apply list_elem_of_In, Hrow.
  - unfold passesFilters, matchesFilter. simpl. rewrite Hlower. simpl.
    rewrite !andb_true_r. apply andb_true_intro. split.
    + destruct (truthy chosen) eqn:T; [|reflexivity].
      apply list_elem_of_In, filter_In in Hrow as [_ Hrow]. exact Hrow.
    + destruct x; [contradiction|]. simpl. apply bool_decide_eq_true. auto.
Qed.

Lemma offered_model_names_witness :
  NoDup (modelNameOptions (extractedData (data sampleRecord)) (js "Honda"))
  /\ js "Civic" <> []
  /\ exists row,
       row ∈ filteredData quietEnv (Some sampleRecord)
               {| flt_manufacturer := js "Honda"; flt_modelName := js "Civic";
                  flt_issueDate := []; flt_option := [] |}.
Proof.
  apply (offered_model_names_select_rows quietEnv sampleRecord (js "Honda") (js "Civic")).
  - reflexivity.
  - vm_compute. apply list_elem_of_here.
Defined.

(** ** The table's option cell *)

Lemma split_on_no_sep (s : jsstring) :
  0x2C ∉ s -> split_on 0x2C s = [s].
Proof.
  induction s as [|c r IH]; [reflexivity|]. intros H.
  apply not_elem_of_cons in H as [Hc Hr]. simpl.
  destruct (c =? 0x2C) eqn:E; [apply N.eqb_eq in E; congruence|].
  rewrite (IH Hr). reflexivity.
Qed.

Lemma split_on_app (a b : jsstring) :
  0x2C ∉ a -> split_on 0x2C (a ++ 0x2C :: b) = a :: split_on 0x2C b.
Proof.
  induction a as [|c r IH]; [reflexivity|]. intros H.
  apply not_elem_of_cons in H as [Hc Hr]. simpl.
  destruct (c =? 0x2C) eqn:E; [apply N.eqb_eq in E; congruence|].
  rewrite (IH Hr). reflexivity.
Qed.

Lemma split_on_nonempty (s : jsstring) : split_on 0x2C s <> [].
Proof.
  induction s as [|c r IH]; simpl; [discriminate|].
  destruct (c =? 0x2C); [discriminate|].
  destruct (split_on 0x2C r); discriminate.
Qed.

Lemma split_on_cons_other (c : N) (s : jsstring) :
  c <> 0x2C ->
  split_on 0x2C (c :: s)
  = match split_on 0x2C s with
    | piece :: pieces => (c :: piece) :: pieces
    | [] => [[c]]
    end.
Proof.
  intros H. simpl. destruct (c =? 0x2C) eqn:E; [apply N.eqb_eq in E; congruence|].
  reflexivity.
Qed.

Lemma parseOptions_join (o : jsstring) (l : list jsstring) :
  plainOption o -> Forall plainOption l ->
  List.filter truthy (map trim (split_on 0x2C (join (js ", ") (o :: l)))) = o :: l.
Proof.
  intros Ho Hl. revert o Ho. induction Hl as [|o' l Ho' Hl IH]; intros o Ho.
  - destruct Ho as (Hne & Ht & Hc). simpl. rewrite (split_on_no_sep o Hc). simpl.
    rewrite Ht. destruct o; [contradiction | reflexivity].
  - destruct Ho as (Hne & Ht & Hc).
    change (join (js ", ") (o :: o' :: l))
      with (o ++ js ", " ++ join (js ", ") (o' :: l)).
    change (js ", ") with [0x2C; 0x20] at 1.
    change (o ++ [0x2C; 0x20] ++ ?r) with (o ++ 0x2C :: 0x20 :: r).
    rewrite (split_on_app o _ Hc).
    rewrite split_on_cons_other by discriminate.
    specialize (IH o' Ho').
    destruct (split_on 0x2C (join (js ", ") (o' :: l))) as [|piece pieces] eqn:E;
      [exfalso; exact (split_on_nonempty _ E)|].
    cbn [map List.filter]. rewrite Ht.
    destruct o as [|c r]; [contradiction|]. cbn [truthy]. f_equal.
    assert (Hsp : trim (0x20 :: piece) = trim piece) by reflexivity.
    rewrite Hsp. exact IH.
Qed.

(** What the option cell shows parses back to the options it shows: an
    edit that changes nothing writes the same list, provided the options are
    not empty, carry no surrounding white space and contain no comma (a
    missing list is read back as the empty list). *)
Theorem options_cell_round_trip (opts : option (list jsstring)) :
  Forall plainOption (default [] opts) ->
  parseOptions (showOptions opts) = default [] opts.
Proof.
  unfold parseOptions, showOptions. intros H.
  destruct (default [] opts) as [|o l]; [reflexivity|].
  apply Forall_cons in H as [Ho Hl]. apply parseOptions_join; assumption.
Qed.

Lemma options_cell_witness :
  parseOptions (showOptions (Some [js "Sunroof"; js "Navigation"]))
  = default [] (Some [js "Sunroof"; js "Navigation"]).
Proof.
  apply (options_cell_round_trip (Some [js "Sunroof"; js "Navigation"])).
  repeat apply Forall_cons_2; try apply Forall_nil_2;
    (split; [discriminate|]; split; [vm_compute; reflexivity|]);
    apply (bool_decide_unpack _); vm_compute; exact I.
Defined.

(** ** The CSV export *)

Lemma includes_singleton (c : N) (s : jsstring) : includes [c] s = true <-> c ∈ s.
Proof.
  induction s as [|b r IH]; simpl.
  - split; [discriminate | intros H; inversion H].
  - rewrite elem_of_cons, <- IH, andb_true_r, orb_true_iff, N.eqb_eq. reflexivity.
Qed.

Lemma doubleQuotes_inj (a b : jsstring) : doubleQuotes a = doubleQuotes b -> a = b.
Proof.
  revert b. induction a as [|c r IH]; intros [|c' r']; simpl.
  - reflexivity.
  - destruct (c' =? 0x22); discriminate.
  - destruct (c =? 0x22); discriminate.
  - destruct (c =? 0x22) eqn:E, (c' =? 0x22) eqn:E'.
    + apply N.eqb_eq in E, E'. intros [= H]. f_equal; [congruence | apply IH, H].
    + intros [= H _]. subst c'. discriminate.
    + intros [= H _]. subst c. discriminate.
    + intros [= -> H]. f_equal. apply IH, H.
Qed.

(** A text can be read back from its CSV cell: two texts that are written
    as the same cell are the same text, whatever commas, quotes and line
    feeds they contain. *)
Theorem csv_cells_keep_the_text (a b : jsstring) :
  escapeCsvCell (CellText a) = escapeCsvCell (CellText b) -> a = b.
Proof.
  unfold escapeCsvCell. simpl.
  destruct (includes [0x2C] a || includes [0x22] a || includes [0x0A] a) eqn:Qa,
           (includes [0x2C] b || includes [0x22] b || includes [0x0A] b) eqn:Qb.
  - intros [= H]. apply app_inv_tail in H. apply doubleQuotes_inj, H.
  - intros H. exfalso.
    assert (Hq : includes [0x22] b = true).
    { apply includes_singleton. rewrite <- H. apply list_elem_of_here. }
    rewrite Hq, orb_true_r in Qb. discriminate.
  - intros H. exfalso.
    assert (Hq : includes [0x22] a = true).
    { apply includes_singleton. rewrite H. apply list_elem_of_here. }
    rewrite Hq, orb_true_r in Qa. discriminate.
  - auto.
Qed.

Lemma csv_cells_witness : js "1.5L, turbo" = js "1.5L," ++ js " turbo".
Proof.
  apply (csv_cells_keep_the_text (js "1.5L, turbo") (js "1.5L," ++ js " turbo")).
  vm_compute. reflexivity.
Defined.

(** An absent value and an empty text are written as the same cell. *)
Example csv_null_and_empty_text :
  escapeCsvCell CellNull = escapeCsvCell (CellText []).
Proof. reflexivity. Qed.

(** ** The first version of the component *)

Section LegacyRuns.
Import Legacy.
Variables (now : Z) (textResult : Settled jsstring) (jsonResult : Settled JsonData).
Variables (pageImages : list jsstring) (file : jsstring) (w : World).

Hypothesis nonempty : pageImages <> [].

Let newCatalogData : CatalogData :=
  {| fileName := file; createdAt := now;
     extractedData := parsedData (valueOr {| parsedData := []; jd_rawJson := [] |} jsonResult);
     rawJson := jd_rawJson (valueOr {| parsedData := []; jd_rawJson := [] |} jsonResult);
     rawText := valueOr [] textResult;
     summary := None; images := None |}.

Lemma error_after_the_branches (s : State) :
  st_error (awaitJson jsonResult (awaitText textResult (resetForExtraction s)))
  = branchErrors textResult jsonResult.
Proof.
  unfold branchErrors.
  destruct textResult as [t|[e1|]], jsonResult as [j|[e2|]]; simpl; try reflexivity.
  - destruct (message e1); reflexivity.
  - destruct (message e1); reflexivity.
Qed.

(** The first version saves whatever the branches delivered, be it
    nothing at all: with a store that works, every run after an upload adds a
    record (with the text and the records of the branches that succeeded),
    lists it first, selects it, leaves the branches' messages in [error], and
    reports plain success. *)
Theorem first_version_saves_whatever_was_extracted :
  IndexedDb.ascending (store w) ->
  let w' := extractAfterUpload noFaults now textResult jsonResult pageImages file w in
  let created := {| id := IndexedDb.keyGenerator (store w); data := newCatalogData |} in
  IndexedDb.records (store w') = IndexedDb.records (store w) ++ [created]
  /\ st_savedCatalogs (state w')
     = created :: merge_sort IndexedDb.newerFirst (IndexedDb.records (store w))
  /\ st_selectedCatalogId (state w') = Some (id created)
  /\ st_error (state w') = branchErrors textResult jsonResult
  /\ st_statusMessage (state w') = STATUS_COMPLETE.
Proof.
  intros Hasc w' created. subst w' created newCatalogData.
  unfold extractAfterUpload, handleExtractData.
  destruct pageImages as [|img rest]; [contradiction|].
  cbn [IndexedDb.saveCatalog noFaults saveFault listFault IndexedDb.add
       IndexedDb.getAllCatalogs state store afterSave st_savedCatalogs
       st_selectedCatalogId st_error st_statusMessage id IndexedDb.records].
  repeat split.
  - apply (listing_after_add (store w) _ Hasc).
  - apply error_after_the_branches.
Qed.


End LegacyRuns.

(** Both branches are rate limited: the first version still adds a
    record, an empty one, and reports success. *)
Lemma first_version_saves_witness :
  let w' := Legacy.extractAfterUpload Legacy.noFaults 1700000000000
              (Rejected (rateLimitedError (js "テキスト抽出")))
              (Rejected (rateLimitedError (js "構造化データ抽出")))
              threePages (js "catalog.pdf") legacyWorld in
  map id (IndexedDb.records (Legacy.store w')) = [1%Z; 2%Z]
  /\ Legacy.st_selectedCatalogId (Legacy.state w') = Some 2%Z
  /\ Legacy.st_error (Legacy.state w')
     = Some (messageOr MSG_TEXT_UNKNOWN (rateLimitedError (js "テキスト抽出"))
             ++ LF
             ++ messageOr MSG_JSON_UNKNOWN (rateLimitedError (js "構造化データ抽出")))
  /\ Legacy.st_statusMessage (Legacy.state w') = Legacy.STATUS_COMPLETE.
Proof.
  pose proof (first_version_saves_whatever_was_extracted 1700000000000
                (Rejected (rateLimitedError (js "テキスト抽出")))
                (Rejected (rateLimitedError (js "構造化データ抽出")))
                threePages (js "catalog.pdf") legacyWorld ltac:(discriminate)
                ltac:(apply IndexedDbFacts.ascending_replay, IndexedDbFacts.ascending_initDB))
    as (Hrecords & _ & Hsel & Herror & Hstatus).
  intros w'. subst w'. rewrite Hrecords, Hsel, Herror.
  split; [vm_compute; reflexivity|]. split; [vm_compute; reflexivity|].
  split; [vm_compute; reflexivity | exact Hstatus].
Defined.

